(** * PlotProdCons: hour-of-week aggregation of net demand

    A shallow embedding of [python-scripts/PlotProdCons.py] and the
    properties of its three steps: file discovery ([dataIter]), aggregation
    ([collectData], [processFile], [floatMaybe]) and summarisation
    ([plotMeans]).

    Python values are modelled as follows.
    - [str] is [string]; the text is taken to be ASCII, which is what the
      data files hold.
    - [int] is [Z] (Python integers are unbounded).
    - [float] is the primitive binary64 type [float] of the prover, so
      arithmetic, comparisons and NaN behave as in Python.
    - the module-level list [rawData] and the standard output are fields of
      an explicit [World] threaded through a state-and-exception monad.
    - the generator returned by [dataIter] is an explicit consumable state. *)

From Stdlib Require Import ZArith List String Ascii Bool Lia.
From Stdlib Require Import Floats.
From Stdlib Require Import DecimalString.
Import ListNotations.

Local Open Scope string_scope.
Local Open Scope Z_scope.

(** ** Text primitives of the Python runtime *)

Module PyText.

(** [Py_ISSPACE]: the characters that [int()] and [float()] strip from both
    ends of an ASCII string: tab, line feed, vertical tab, form feed,
    carriage return and space. *)
Definition is_space (c : ascii) : bool :=
  let n := N_of_ascii c in
  ((9 <=? n) && (n <=? 13))%N || (n =? 32)%N.

Definition is_digit (c : ascii) : bool :=
  let n := N_of_ascii c in ((48 <=? n) && (n <=? 57))%N.

Definition digit_val (c : ascii) : Z := Z.of_N (N_of_ascii c) - 48.

Definition to_lower (c : ascii) : ascii :=
  let n := N_of_ascii c in
  if ((65 <=? n) && (n <=? 90))%N then ascii_of_N (n + 32) else c.

Fixpoint drop_spaces (s : list ascii) : list ascii :=
  match s with
  | c :: s' => if is_space c then drop_spaces s' else s
  | [] => []
  end.

(** Removal of leading and trailing white space. *)
Definition strip (s : list ascii) : list ascii :=
  rev (drop_spaces (rev (drop_spaces s))).

(** The longest prefix of digits, and what follows it. *)
Fixpoint span_digits (s : list ascii) : list ascii * list ascii :=
  match s with
  | c :: s' =>
      if is_digit c
      then let (ds, rest) := span_digits s' in (c :: ds, rest)
      else ([], s)
  | [] => ([], [])
  end.

(** Value of a digit sequence in base ten. *)
Definition digits_value (ds : list ascii) : Z :=
  fold_left (fun acc c => 10 * acc + digit_val c) ds 0.

(** Numeric literals may group digits with single underscores. An
    underscore is accepted only between two digits; the result is the text
    without underscores. *)
Fixpoint drop_underscores (prev_digit : bool) (s : list ascii)
  : option (list ascii) :=
  match s with
  | [] => Some []
  | c :: s' =>
      if Ascii.eqb c "_"
      then match s' with
           | d :: _ =>
               if prev_digit && is_digit d
               then drop_underscores false s'
               else None
           | [] => None
           end
      else option_map (cons c) (drop_underscores (is_digit c) s')
  end.

(** An optional sign: [true] for a minus sign. *)
Definition take_sign (s : list ascii) : bool * list ascii :=
  match s with
  | c :: s' =>
      if Ascii.eqb c "-" then (true, s')
      else if Ascii.eqb c "+" then (false, s')
      else (false, s)
  | [] => (false, [])
  end.

Definition chars := list_ascii_of_string.

(** [prefix_of p s]: what follows [p] in [s] when [s] starts with [p]. *)
Fixpoint prefix_of (p s : list ascii) : option (list ascii) :=
  match p, s with
  | [], _ => Some s
  | a :: p', b :: s' => if Ascii.eqb a b then prefix_of p' s' else None
  | _ :: _, [] => None
  end.

(** [str.split(sep)] for a non-empty separator: the pieces between the
    non-overlapping occurrences of [sep], found from left to right. [skip]
    counts the characters of a matched separator still to be passed over and
    [cur] holds the current piece, last character first. *)
Fixpoint split_from (sep s : list ascii) (skip : nat) (cur : list ascii)
  : list (list ascii) :=
  match s with
  | [] => [rev cur]
  | c :: s' =>
      match skip with
      | S k => split_from sep s' k cur
      | O =>
          match prefix_of sep s with
          | Some _ => rev cur :: split_from sep s' (Nat.pred (List.length sep)) []
          | None => split_from sep s' 0 (c :: cur)
          end
      end
  end.

Definition split (sep s : string) : list string :=
  map string_of_list_ascii (split_from (chars sep) (chars s) 0 []).

End PyText.

(** ** [int(str)] *)

Module PyInt.
Import PyText.

(** Base-ten integer literal: white space around, an optional sign, then one
    or more digits, possibly grouped by underscores. [None] stands for the
    [ValueError] Python raises. (The limit that recent interpreters put on
    the number of digits is left out.) *)
Definition parse (s : string) : option Z :=
  let (neg, body) := take_sign (strip (chars s)) in
  match drop_underscores false body with
  | Some ds =>
      match span_digits ds with
      | (_ :: _, []) =>
          Some (if neg then - digits_value ds else digits_value ds)
      | _ => None
      end
  | None => None
  end.

End PyInt.

(** ** [float(str)] *)

Module PyFloat.
Import PyText.

(** The binary64 number nearest to [n / d] (ties to even), for positive [n]
    and [d]. The quotient is taken with at least 63 significant bits and a
    sticky last bit, which rounds as the exact quotient does. *)
Definition round_ratio (neg : bool) (n d : Z) : float :=
  let s := Z.max 0 (64 + Z.log2 d - Z.log2 n) in
  let q := (n * 2 ^ s) / d in
  let r := (n * 2 ^ s) mod d in
  let m := 2 * q + (if r =? 0 then 0 else 1) in
  SF2Prim (binary_normalize prec emax (if neg then - m else m) (- (s + 1)) false).

(** The binary64 number nearest to [m * 10 ^ e], for [m >= 0]. *)
Definition of_decimal (neg : bool) (m e : Z) : float :=
  if m =? 0 then (if neg then neg_zero else zero)
  else if 0 <=? e then round_ratio neg (m * 10 ^ e) 1
  else round_ratio neg m (10 ^ (- e)).

(** The exponent part of a literal: nothing, or [e] or [E], an optional sign
    and one or more digits, up to the end of the text. *)
Definition exponent (s : list ascii) : option Z :=
  match s with
  | [] => Some 0
  | c :: s' =>
      if Ascii.eqb (to_lower c) "e"
      then let (neg, t) := take_sign s' in
           match span_digits t with
           | ((_ :: _) as ds, []) =>
               Some (if neg then - digits_value ds else digits_value ds)
           | _ => None
           end
      else None
  end.

(** A decimal literal without its sign: digits with an optional point and
    an optional exponent; at least one digit before or after the point. *)
Definition decimal (neg : bool) (s : list ascii) : option float :=
  let (ip, r1) := span_digits s in
  let (fp, r2) :=
    match r1 with
    | c :: r => if Ascii.eqb c "." then span_digits r else ([], r1)
    | [] => ([], [])
    end in
  match (ip ++ fp)%list with
  | [] => None
  | ds =>
      match exponent r2 with
      | Some e =>
          Some (of_decimal neg (digits_value ds) (e - Z.of_nat (List.length fp)))
      | None => None
      end
  end.

Definition text_eqb (a : list ascii) (b : string) : bool :=
  String.eqb (string_of_list_ascii a) b.

(** [float(s)]: white space around, an optional sign, then [inf],
    [infinity] or [nan] in any case, or a decimal literal whose digits may
    be grouped by underscores. The value is correctly rounded; a literal too
    large for binary64 gives an infinity. [None] stands for the
    [ValueError] Python raises. *)
Definition parse (s : string) : option float :=
  let (neg, body) := take_sign (strip (chars s)) in
  let low := map to_lower body in
  if text_eqb low "inf" || text_eqb low "infinity"
  then Some (if neg then neg_infinity else infinity)
  else if text_eqb low "nan" then Some nan
  else match drop_underscores false body with
       | Some t => decimal neg t
       | None => None
       end.

End PyFloat.

(** ** The interpreter state and its monad *)

(** The exceptions the script can meet. None is caught by the script. *)
Inductive exn := ValueError | IndexError | OSError.

(** One displayed figure: the arguments of [plt.errorbar]. *)
Record Chart := { chart_x : list Z; chart_y : list float; chart_yerr : list float }.

(** [rawData] is the module-level list of buckets; [stdout] holds the text of
    each [print] call, oldest first; [shown] holds the figures displayed. *)
Record World := {
  rawData : list (list float);
  stdout : list string;
  shown : list Chart
}.

(** A computation either returns a value or raises; in both cases the
    mutations made so far stay in the world. *)
Inductive outcome (A : Type) := Returned (a : A) | Raised (e : exn).
Arguments Returned {A} a.
Arguments Raised {A} e.

Definition M (A : Type) : Type := World -> outcome A * World.

Definition ret {A} (a : A) : M A := fun w => (Returned a, w).
Definition raise {A} (e : exn) : M A := fun w => (Raised e, w).
Definition bind {A B} (m : M A) (k : A -> M B) : M B :=
  fun w => match m w with
           | (Returned a, w') => k a w'
           | (Raised e, w') => (Raised e, w')
           end.

Declare Scope py_scope.
Delimit Scope py_scope with py.
Notation "x <- m ;; k" := (bind m (fun x => k))
  (at level 61, m at next level, right associativity) : py_scope.
Notation "m ;; k" := (bind m (fun _ => k))
  (at level 61, right associativity) : py_scope.
Local Open Scope py_scope.

(** [for x in l: body x] *)
Fixpoint for_each {A} (l : list A) (body : A -> M unit) : M unit :=
  match l with
  | [] => ret tt
  | x :: l' => body x ;; for_each l' body
  end.

(** [print(a, b, ...)]: the arguments separated by single spaces. *)
Definition print (args : list string) : M unit :=
  fun w => (Returned tt,
            {| rawData := rawData w;
               stdout := (stdout w ++ [String.concat " " args])%list;
               shown := shown w |}).

(** ** Python lists *)

(** The position an index denotes in a list of [len] elements: indices at
    or above zero count from the front, negative ones from the back. *)
Definition py_pos (len : nat) (i : Z) : option nat :=
  if 0 <=? i
  then (if i <? Z.of_nat len then Some (Z.to_nat i) else None)
  else (if - Z.of_nat len <=? i then Some (Z.to_nat (i + Z.of_nat len)) else None).

(** [l[i]], raising [IndexError] out of range. *)
Definition getitem {A} (l : list A) (i : Z) : M A :=
  match py_pos (List.length l) i with
  | Some k =>
      match nth_error l k with
      | Some x => ret x
      | None => raise IndexError
      end
  | None => raise IndexError
  end.

(** [update_at k f l]: [l] with its element at position [k] replaced by its
    image under [f]. *)
Fixpoint update_at {A} (k : nat) (f : A -> A) (l : list A) {struct l} : list A :=
  match l, k with
  | [], _ => []
  | x :: l', O => f x :: l'
  | x :: l', S k' => x :: update_at k' f l'
  end.

(** ** Aggregation *)

(** [rawData = [[] for x in range(168)]]: 168 distinct empty lists. *)
Definition rawData_init : list (list float) := repeat [] 168.

Definition world_init : World :=
  {| rawData := rawData_init; stdout := []; shown := [] |}.

(** [column = (dow - 1) * 24 + hod] *)
Definition column (dow hod : Z) : Z := (dow - 1) * 24 + hod.

(** [rawData[column].append(net)] *)
Definition rawData_append (col : Z) (net : float) : M unit :=
  fun w =>
    match py_pos (List.length (rawData w)) col with
    | Some k =>
        (Returned tt,
         {| rawData := update_at k (fun b => (b ++ [net])%list) (rawData w);
            stdout := stdout w;
            shown := shown w |})
    | None => (Raised IndexError, w)
    end.

Definition floatMaybe (str : string) : M float :=
  let result := 0%float in
  if negb (String.eqb str "")
  then match PyFloat.parse str with
       | Some result => ret result
       | None => raise ValueError
       end
  else print ["failed to float"; str] ;; ret result.

Definition int (s : string) : M Z :=
  match PyInt.parse s with
  | Some n => ret n
  | None => raise ValueError
  end.

(** The body of the loop of [processFile], for one line. *)
Definition processLine (line : string) : M unit :=
  let row := PyText.split ", " line in
  f1 <- getitem row 1 ;;
  dow <- int f1 ;;
  f2 <- getitem row 2 ;;
  hod <- int f2 ;;
  let column := column dow hod in
  f3 <- getitem row 3 ;;
  prod <- floatMaybe f3 ;;
  f4 <- getitem row 4 ;;
  cons <- floatMaybe f4 ;;
  if (cons <? 0)%float
  then let net := (- prod - cons)%float in
       rawData_append column net
  else ret tt.

(** ** Files *)

(** What the script sees of the file system: the entry names a directory
    scan yields, in enumeration order (none for a path that is not a
    directory), and the text of the file at a path, if it can be opened. *)
Record FileSystem := {
  fs_entries : string -> list string;
  fs_text : string -> option string
}.

Definition LF : ascii := ascii_of_N 10.
Definition CR : ascii := ascii_of_N 13.

(** Text mode reads with universal newlines: a carriage return, alone or
    followed by a line feed, is read as a line feed. *)
Fixpoint universal_newlines (s : list ascii) : list ascii :=
  match s with
  | [] => []
  | c :: s' =>
      if Ascii.eqb c CR
      then LF :: match s' with
                 | d :: s'' =>
                     if Ascii.eqb d LF then universal_newlines s''
                     else universal_newlines s'
                 | [] => []
                 end
      else c :: universal_newlines s'
  end.

(** The lines of a text, each with its line feed; a last line without one
    is kept. [cur] is the current line, last character first. *)
Fixpoint lines_from (s cur : list ascii) : list (list ascii) :=
  match s with
  | [] => match cur with [] => [] | _ => [rev cur] end
  | c :: s' =>
      if Ascii.eqb c LF then rev (c :: cur) :: lines_from s' []
      else lines_from s' (c :: cur)
  end.

(** The lines that [readlines] gives for the text of a file. *)
Definition text_lines (text : string) : list string :=
  map string_of_list_ascii
      (lines_from (universal_newlines (PyText.chars text)) []).

(** [open(dataFile, 'r').readlines()] *)
Definition readlines (fs : FileSystem) (dataFile : string) : M (list string) :=
  match fs_text fs dataFile with
  | Some text => ret (text_lines text)
  | None => raise OSError
  end.

Definition processFile (fs : FileSystem) (dataFile : string) : M unit :=
  lines <- readlines fs dataFile ;;
  for_each lines processLine.

(** ** File discovery *)

(** A [pathlib.Path] below a directory; [str] joins the two parts. *)
Record Path := { parent : string; name : string }.

Definition Path_str (p : Path) : string := parent p ++ "/" ++ name p.

(** Shell-style matching of an entry name against a pattern made of
    literal characters, [?] (any one character) and [*] (any run of
    characters, possibly empty). *)
Fixpoint fnmatch (pat nm : list ascii) {struct pat} : bool :=
  match pat with
  | [] => match nm with [] => true | _ :: _ => false end
  | p :: pat' =>
      if Ascii.eqb p "*"
      then (fix star (n : list ascii) : bool :=
              fnmatch pat' n ||
              match n with [] => false | _ :: n' => star n' end) nm
      else match nm with
           | [] => false
           | c :: nm' => (Ascii.eqb p "?" || Ascii.eqb p c) && fnmatch pat' nm'
           end
  end.

(** [path.glob(pattern)] for a pattern without directory separators: the
    entries of the directory whose names match, in enumeration order. *)
Definition glob (fs : FileSystem) (dir pattern : string) : list Path :=
  map (fun n => {| parent := dir; name := n |})
      (filter (fun n => fnmatch (PyText.chars pattern) (PyText.chars n))
              (fs_entries fs dir)).

(** A generator object. Until its first item is asked for it has not looked
    at the directory; afterwards it holds the items still to come. It is
    consumed as it is iterated. *)
Inductive generator :=
| Unstarted (dir pattern : string)
| Running (rest : list Path).

(** [dataIter(dataDir)]: the generator expression over [path.glob]. Building
    it does not read the directory. *)
Definition dataIter (dataDir : string) : generator :=
  Unstarted dataDir "*-prod-cons.data".

(** [next(g)]: the next item, if any, and the generator afterwards. *)
Definition next (fs : FileSystem) (g : generator) : option Path * generator :=
  match g with
  | Unstarted dir pattern =>
      match glob fs dir pattern with
      | [] => (None, Running [])
      | p :: rest => (Some p, Running rest)
      end
  | Running [] => (None, Running [])
  | Running (p :: rest) => (Some p, Running rest)
  end.

(** The items a generator has yet to yield. *)
Definition pending (fs : FileSystem) (g : generator) : list Path :=
  match g with
  | Unstarted dir pattern => glob fs dir pattern
  | Running rest => rest
  end.

(** [list(g)]: every remaining item, leaving the generator exhausted. *)
Definition iterate (fs : FileSystem) (g : generator) : list Path * generator :=
  (pending fs g, Running []).

(** [collectData(dataDir)]: the loop takes the items of the generator one
    by one; the file system does not change meanwhile. *)
Definition collectData (fs : FileSystem) (dataDir : string) : M unit :=
  for_each (fst (iterate fs (dataIter dataDir)))
           (fun dataFile => processFile fs (Path_str dataFile)).

(** ** Summarisation *)

Module Numpy.

Definition of_nat (n : nat) : float := of_uint63 (Uint63.of_Z (Z.of_nat n)).

(** [add.reduce] over a float64 array: the elements are added from left to
    right starting from zero. (This is numpy's order for arrays of fewer
    than eight elements; longer arrays are added blockwise.) *)
Definition sum (a : list float) : float := fold_left add a zero.

(** [a.mean()]: the sum divided by the number of elements. *)
Definition mean (a : list float) : float :=
  (sum a / of_nat (List.length a))%float.

(** [a.std()], with zero delta degrees of freedom: the square root of the
    mean of the squared deviations from the mean. *)
Definition std (a : list float) : float :=
  let arrmean := (sum a / of_nat (List.length a))%float in
  let x := map (fun v => ((v - arrmean) * (v - arrmean))%float) a in
  sqrt (sum x / of_nat (Nat.max (List.length a - 0) 0))%float.

(** [np.shape(d)] of a list of one-dimensional arrays: two-dimensional when
    all have one length, else the one-dimensional shape of an array of
    objects, which is what the numpy releases up to 1.23 build from arrays
    of different lengths. (Later releases refuse such a list.) *)
Definition shape (d : list (list float)) : list nat :=
  match d with
  | [] => [O]
  | a :: d' =>
      if forallb (fun b => Nat.eqb (List.length b) (List.length a)) d'
      then [List.length d; List.length a]
      else [List.length d]
  end.

End Numpy.

Definition repr_nat (n : nat) : string := NilZero.string_of_uint (Nat.to_uint n).

(** [repr] of a tuple of integers. *)
Definition repr_tuple (t : list nat) : string :=
  match t with
  | [n] => "(" ++ repr_nat n ++ ",)"
  | _ => "(" ++ String.concat ", " (map repr_nat t) ++ ")"
  end.

(** [range(n)] *)
Definition range (n : nat) : list Z := map Z.of_nat (seq 0 n).

(** [plt.figure(); plt.errorbar(x, y, yerr=e); plt.show()] *)
Definition show_errorbar (x : list Z) (y e : list float) : M unit :=
  fun w => (Returned tt,
            {| rawData := rawData w;
               stdout := stdout w;
               shown := (shown w ++ [{| chart_x := x; chart_y := y; chart_yerr := e |}])%list |}).

Definition read_rawData : M (list (list float)) := fun w => (Returned (rawData w), w).

Definition plotMeans : M unit :=
  d <- read_rawData ;;
  print ["Shape:"; repr_tuple (Numpy.shape d)] ;;
  let means := map Numpy.mean d in
  let stds := map Numpy.std d in
  let x := range (hd O (Numpy.shape d)) in
  show_errorbar x means stds.

(** * Vocabulary of the properties

    Pure descriptions of what the code above does, used to state and prove
    the properties. Each is related to the code by a lemma below. *)

(** ** Worlds *)

(** The world after some buckets changed and some text was printed. *)
Definition evolve (f : list (list float) -> list (list float)) (says : list string)
  (w : World) : World :=
  {| rawData := f (rawData w);
     stdout := (stdout w ++ says)%list;
     shown := shown w |}.

(** ** What [floatMaybe] returns and prints *)

Definition floatMaybe_value (str : string) : option float :=
  if String.eqb str "" then Some 0%float else PyFloat.parse str.

Definition floatMaybe_says (str : string) : list string :=
  if String.eqb str "" then ["failed to float "] else [].

(** ** The effect of one line *)

(** What a line does to a store of [n] buckets: how it ends, the bucket
    position and value it appends, if any, and what it prints. *)
Definition line_effect (n : nat) (line : string)
  : outcome unit * option (nat * float) * list string :=
  let row := PyText.split ", " line in
  match nth_error row 1 with
  | None => (Raised IndexError, None, [])
  | Some f1 =>
  match PyInt.parse f1 with
  | None => (Raised ValueError, None, [])
  | Some dow =>
  match nth_error row 2 with
  | None => (Raised IndexError, None, [])
  | Some f2 =>
  match PyInt.parse f2 with
  | None => (Raised ValueError, None, [])
  | Some hod =>
  match nth_error row 3 with
  | None => (Raised IndexError, None, [])
  | Some f3 =>
  match floatMaybe_value f3 with
  | None => (Raised ValueError, None, [])
  | Some prod =>
  match nth_error row 4 with
  | None => (Raised IndexError, None, floatMaybe_says f3)
  | Some f4 =>
  match floatMaybe_value f4 with
  | None => (Raised ValueError, None, floatMaybe_says f3)
  | Some cns =>
      let says := (floatMaybe_says f3 ++ floatMaybe_says f4)%list in
      if (cns <? 0)%float
      then match py_pos n (column dow hod) with
           | Some k => (Returned tt, Some (k, (- prod - cns)%float), says)
           | None => (Raised IndexError, None, says)
           end
      else (Returned tt, None, says)
  end end end end end end end end.

(** Appending the value of an effect to its bucket. *)
Definition put (upd : option (nat * float)) (r : list (list float)) : list (list float) :=
  match upd with
  | Some (k, v) => update_at k (fun b => (b ++ [v])%list) r
  | None => r
  end.

(** ** Rows *)

(** The four values a line holds, when its fields can all be read: the
    integers of fields 1 and 2 and the numbers [floatMaybe] gives for fields
    3 and 4. *)
Definition parsed_row (line : string) : option (Z * Z * float * float) :=
  match PyText.split ", " line with
  | _ :: f1 :: f2 :: f3 :: f4 :: _ =>
      match PyInt.parse f1, PyInt.parse f2, floatMaybe_value f3, floatMaybe_value f4 with
      | Some dow, Some hod, Some prod, Some cns => Some (dow, hod, prod, cns)
      | _, _, _, _ => None
      end
  | _ => None
  end.

(** What reading the two numeric fields of a line prints. *)
Definition row_says (line : string) : list string :=
  match PyText.split ", " line with
  | _ :: _ :: _ :: f3 :: f4 :: _ => (floatMaybe_says f3 ++ floatMaybe_says f4)%list
  | _ => []
  end.

(** ** Runs that only append *)

(** A fresh store of [n] buckets. *)
Definition fresh (n : nat) : World :=
  {| rawData := repeat [] n; stdout := []; shown := [] |}.

(** Appending a sequence of values, each to its bucket, in order. *)
Definition puts (upds : list (nat * float)) (r : list (list float)) : list (list float) :=
  fold_left (fun r u => update_at (fst u) (fun b => (b ++ [snd u])%list) r) upds r.

(** Bucket by bucket concatenation of two stores of one length. *)
Fixpoint app_each (s d : list (list float)) : list (list float) :=
  match s, d with
  | b :: s', a :: d' => (b ++ a)%list :: app_each s' d'
  | _, _ => []
  end.

(** [acts m n res upds says]: on every store of [n] buckets, [m] ends with
    [res], having appended [upds] and printed [says], and nothing else. *)
Definition acts (m : M unit) (n : nat) (res : outcome unit)
  (upds : list (nat * float)) (says : list string) : Prop :=
  forall w, List.length (rawData w) = n -> m w = (res, evolve (puts upds) says w).

(** A computation keeps the buckets when it leaves their number unchanged
    and every bucket afterwards is the bucket before, at the same position,
    with values added at its end. *)
Definition keeps_buckets (m : M unit) : Prop :=
  forall w,
    List.length (rawData (snd (m w))) = List.length (rawData w) /\
    (forall i b, nth_error (rawData w) i = Some b ->
       exists added, nth_error (rawData (snd (m w))) i = Some (b ++ added)%list).

(** ** Generators, item by item *)

(** Taking the items of a generator one by one with [next], at most [fuel]
    of them. *)
Fixpoint take_items (fs : FileSystem) (fuel : nat) (g : generator) : list Path :=
  match fuel with
  | O => []
  | S fuel' =>
      match next fs g with
      | (Some p, g') => p :: take_items fs fuel' g'
      | (None, _) => []
      end
  end.

(** ** A directory with one game *)

Module OneGame.

Definition nl : string := String LF EmptyString.

(** The directory [games] holds the single file [g1-prod-cons.data], whose
    single line is for day 1, hour 0, production 2.0, consumption -5.0. *)
Definition fs : FileSystem :=
  {| fs_entries := fun d => if String.eqb d "games" then ["g1-prod-cons.data"] else [];
     fs_text := fun p =>
       if String.eqb p "games/g1-prod-cons.data"
       then Some ("360, 1, 0, 2.0, -5.0" ++ nl)
       else None |}.

Definition dataFile : string := "games/g1-prod-cons.data".

End OneGame.

(** ** Counting, well-formed rows and line endings *)

(** The number of values held by a store, over all its buckets. *)
Definition total_samples (r : list (list float)) : nat :=
  list_sum (map (@List.length float) r).

(** A line all of whose fields can be read and whose day and hour lie in
    the week. *)
Definition valid_row (line : string) : bool :=
  match parsed_row line with
  | Some (dow, hod, _, _) => (0 <=? column dow hod) && (column dow hod <=? 167)
  | None => false
  end.

(** A readable line whose consumption is below zero. *)
Definition contributes (line : string) : bool :=
  match parsed_row line with
  | Some (_, _, _, cns) => (cns <? 0)%float
  | None => false
  end.

(** The text of the only diagnostic of the script. *)
Definition diagnostic : string := "failed to float ".

(** A text with each line feed preceded by a carriage return. *)
Fixpoint to_crlf (s : string) : string :=
  match s with
  | EmptyString => EmptyString
  | String c s' =>
      if Ascii.eqb c LF then String CR (String LF (to_crlf s'))
      else String c (to_crlf s')
  end.

(** * Properties *)

(** ** The runtime model on sample texts *)

Example split_row :
  PyText.split ", " "360, 1, 0, 2.0, -5.0" = ["360"; "1"; "0"; "2.0"; "-5.0"].
Proof. reflexivity. Qed.

Example split_commas_only :
  PyText.split ", " "1,1,0,2.0,-5.0" = ["1,1,0,2.0,-5.0"].
Proof. reflexivity. Qed.

Example split_empty_fields :
  PyText.split ", " ", , a,, " = [""; ""; "a,"; ""].
Proof. reflexivity. Qed.

Example int_samples :
  PyInt.parse " 7" = Some 7 /\ PyInt.parse "-1_0" = Some (-10) /\
  PyInt.parse "+012" = Some 12 /\ PyInt.parse "" = None /\
  PyInt.parse "1__0" = None /\ PyInt.parse "_1" = None /\
  PyInt.parse "1_" = None /\ PyInt.parse "+ 1" = None /\
  PyInt.parse "2.0" = None.
Proof. repeat split; reflexivity. Qed.

Example float_samples :
  PyFloat.parse "2.0" = Some 2%float /\
  PyFloat.parse (" -5.0" ++ String LF "") = Some (-5)%float /\
  PyFloat.parse "1." = Some 1%float /\
  PyFloat.parse ".5" = Some 0x1p-1%float /\
  PyFloat.parse "1_0.2_5e0_1" = Some 0x1.9ap+6%float /\
  PyFloat.parse "-0" = Some neg_zero /\
  PyFloat.parse "-InFinity" = Some neg_infinity /\
  PyFloat.parse "nan" = Some nan /\
  PyFloat.parse "" = None /\ PyFloat.parse "." = None /\
  PyFloat.parse "1e" = None /\ PyFloat.parse "1_.5" = None /\
  PyFloat.parse (String LF "") = None /\ PyFloat.parse "2,0" = None.
Proof. repeat split; reflexivity. Qed.

(** Rounding to nearest, ties to even, at the edges of binary64. *)
Example float_rounding :
  PyFloat.parse "0.1" = Some 0x1.999999999999ap-4%float /\
  PyFloat.parse "9007199254740993" = Some 0x1p+53%float /\
  PyFloat.parse "9007199254740995" = Some 0x1.0000000000002p+53%float /\
  PyFloat.parse "1.7976931348623157e308" = Some 0x1.fffffffffffffp+1023%float /\
  PyFloat.parse "1.7976931348623159e308" = Some infinity /\
  PyFloat.parse "1e999" = Some infinity /\
  PyFloat.parse "4.9e-324" = Some 0x1p-1074%float /\
  PyFloat.parse "2.4703282292062328e-324" = Some 0x1p-1074%float /\
  PyFloat.parse "2.4703282292062327e-324" = Some 0%float.
Proof. repeat split; vm_compute; reflexivity. Qed.

Example lines_samples :
  text_lines ("a" ++ String LF "b" ++ String CR (String LF "c") ++ String CR "d")
  = ["a" ++ String LF ""; "b" ++ String LF ""; "c" ++ String LF ""; "d"] /\
  text_lines "" = [].
Proof. split; reflexivity. Qed.

(** With commas only between the fields the line has a single field, and
    reading field 1 raises. *)
Example commas_only_row_raises :
  processLine "1,1,0,2.0,-5.0" world_init = (Raised IndexError, world_init).
Proof. reflexivity. Qed.

(** A negative bucket index counts from the end of the store, as Python
    list indices do. *)
Example day_zero_row :
  column 0 0 = -24 /\
  py_pos 168 (column 0 0) = Some 144%nat /\
  nth_error (rawData (snd (processLine "360, 0, 0, 2.0, -5.0" world_init))) 144
  = Some [3%float].
Proof. repeat split; reflexivity. Qed.

(** ** Worlds *)

Lemma evolve_id (w : World) : evolve (fun r => r) [] w = w.
Proof.
  destruct w as [r o c]; unfold evolve; cbn. now rewrite app_nil_r.
Qed.

Lemma evolve_evolve f g s t w :
  evolve g t (evolve f s w) = evolve (fun r => g (f r)) (s ++ t) w.
Proof.
  unfold evolve; cbn. now rewrite app_assoc.
Qed.

(** ** Lists indexed the Python way *)

Lemma py_pos_nat (len k : nat) :
  py_pos len (Z.of_nat k) = if (k <? len)%nat then Some k else None.
Proof.
  unfold py_pos.
  destruct (Z.leb_spec 0 (Z.of_nat k)); [|lia].
  destruct (Z.ltb_spec (Z.of_nat k) (Z.of_nat len)), (Nat.ltb_spec k len);
    try lia; [now rewrite Nat2Z.id | reflexivity].
Qed.

Lemma py_pos_in_range (len : nat) (i : Z) :
  0 <= i < Z.of_nat len -> py_pos len i = Some (Z.to_nat i).
Proof.
  intros H. unfold py_pos.
  destruct (Z.leb_spec 0 i); [|lia].
  destruct (Z.ltb_spec i (Z.of_nat len)); [reflexivity|lia].
Qed.

Lemma getitem_nat {A} (l : list A) (k : nat) (w : World) :
  getitem l (Z.of_nat k) w =
  match nth_error l k with
  | Some x => (Returned x, w)
  | None => (Raised IndexError, w)
  end.
Proof.
  unfold getitem. rewrite py_pos_nat.
  destruct (Nat.ltb_spec k (List.length l)) as [H|H].
  - destruct (nth_error l k); reflexivity.
  - apply nth_error_None in H. now rewrite H.
Qed.

Lemma length_update_at {A} (k : nat) (f : A -> A) (l : list A) :
  List.length (update_at k f l) = List.length l.
Proof.
  revert k; induction l as [|x l IH]; intros [|k]; cbn; auto.
Qed.

Lemma nth_error_update_at_eq {A} (k : nat) (f : A -> A) (l : list A) :
  nth_error (update_at k f l) k = option_map f (nth_error l k).
Proof.
  revert k; induction l as [|x l IH]; intros [|k]; cbn; auto.
Qed.

Lemma nth_error_update_at_neq {A} (k j : nat) (f : A -> A) (l : list A) :
  j <> k -> nth_error (update_at k f l) j = nth_error l j.
Proof.
  revert k j; induction l as [|x l IH]; intros [|k] [|j] H; cbn; auto;
    congruence.
Qed.

(** ** What [floatMaybe] returns and prints *)

Lemma floatMaybe_run (str : string) (w : World) :
  floatMaybe str w =
  match floatMaybe_value str with
  | Some v => (Returned v, evolve (fun r => r) (floatMaybe_says str) w)
  | None => (Raised ValueError, w)
  end.
Proof.
  unfold floatMaybe, floatMaybe_value, floatMaybe_says.
  destruct (String.eqb_spec str "") as [->|H]; cbn.
  - reflexivity.
  - destruct (PyFloat.parse str); unfold ret, raise; now rewrite ?evolve_id.
Qed.

(** ** The effect of one line *)

Lemma processLine_run (line : string) (w : World) :
  processLine line w =
  let '(res, upd, says) := line_effect (List.length (rawData w)) line in
  (res, evolve (put upd) says w).
Proof.
  unfold processLine, line_effect, bind, int.
  change 1 with (Z.of_nat 1); change 2 with (Z.of_nat 2);
    change 3 with (Z.of_nat 3); change 4 with (Z.of_nat 4).
  rewrite !getitem_nat.
  set (row := PyText.split ", " line).
  destruct (nth_error row 1) as [f1|]; [|now rewrite evolve_id].
  destruct (PyInt.parse f1) as [dow|]; unfold ret, raise; [|now rewrite evolve_id].
  rewrite getitem_nat.
  destruct (nth_error row 2) as [f2|]; [|now rewrite evolve_id].
  destruct (PyInt.parse f2) as [hod|]; [|now rewrite evolve_id].
  rewrite getitem_nat.
  destruct (nth_error row 3) as [f3|]; [|now rewrite evolve_id].
  rewrite floatMaybe_run.
  destruct (floatMaybe_value f3) as [prod|]; [|now rewrite evolve_id].
  rewrite getitem_nat.
  destruct (nth_error row 4) as [f4|]; [|reflexivity].
  rewrite floatMaybe_run.
  destruct (floatMaybe_value f4) as [cns|]; [|reflexivity].
  rewrite evolve_evolve.
  destruct (cns <? 0)%float; [|reflexivity].
  unfold rawData_append; cbn [rawData evolve].
  destruct (py_pos (List.length (rawData w)) (column dow hod)); reflexivity.
Qed.

(** ** Rows *)

Lemma line_effect_parsed (n : nat) (line : string) dow hod prod cns :
  parsed_row line = Some (dow, hod, prod, cns) ->
  line_effect n line =
  if (cns <? 0)%float
  then match py_pos n (column dow hod) with
       | Some k => (Returned tt, Some (k, (- prod - cns)%float), row_says line)
       | None => (Raised IndexError, None, row_says line)
       end
  else (Returned tt, None, row_says line).
Proof.
  unfold parsed_row, line_effect, row_says.
  destruct (PyText.split ", " line) as [|f0 [|f1 [|f2 [|f3 [|f4 row]]]]];
    try discriminate; cbn [nth_error].
  destruct (PyInt.parse f1), (PyInt.parse f2), (floatMaybe_value f3),
    (floatMaybe_value f4); try discriminate.
  now intros [= -> -> -> ->].
Qed.

(** ** Bucket indices *)

(** C2. For day-of-week in [1,7] and hour-of-day in [0,23] the bucket index
    [(day - 1) * 24 + hour] lies in [0,167] and denotes a bucket of the
    store, and two valid pairs with the same index are the same pair. *)
Theorem column_range_injective (dow hod dow' hod' : Z) :
  1 <= dow <= 7 -> 0 <= hod <= 23 ->
  1 <= dow' <= 7 -> 0 <= hod' <= 23 ->
  0 <= column dow hod <= 167 /\
  py_pos (List.length rawData_init) (column dow hod) = Some (Z.to_nat (column dow hod)) /\
  (column dow hod = column dow' hod' -> dow = dow' /\ hod = hod').
Proof.
  intros Hd Hh Hd' Hh'. unfold column.
  split; [lia|split].
  - apply py_pos_in_range. change (Z.of_nat (List.length rawData_init)) with 168. lia.
  - lia.
Qed.

Lemma column_range_injective_witness :
  0 <= column 7 23 <= 167 /\
  py_pos (List.length rawData_init) (column 7 23) = Some (Z.to_nat (column 7 23)) /\
  (column 7 23 = column 1 0 -> 7 = 1 /\ 23 = 0).
Proof.
  apply (column_range_injective 7 23 1 0); lia.
Defined.

(** ** Comparison with zero *)

Lemma not_lt_zero_of_ge (c : float) :
  (0 <=? c)%float = true -> (c <? 0)%float = false.
Proof.
  rewrite leb_spec, ltb_spec.
  change (Prim2SF 0) with (S754_zero false).
  destruct (Prim2SF c) as [[|]|[|]| |[|] m e]; cbn; congruence.
Qed.

(** ** The tolerant float parse *)

(** C4. [floatMaybe] returns 0.0 and prints a diagnostic for the empty
    string. For a non-empty string it prints nothing: it returns the value
    of [float] when the text is a number and raises [ValueError] when it is
    not. *)
Theorem floatMaybe_contract (str : string) (w : World) :
  floatMaybe "" w =
    (Returned 0%float,
     {| rawData := rawData w;
        stdout := (stdout w ++ ["failed to float "])%list;
        shown := shown w |}) /\
  (str <> "" ->
   (forall v, PyFloat.parse str = Some v -> floatMaybe str w = (Returned v, w)) /\
   (PyFloat.parse str = None -> floatMaybe str w = (Raised ValueError, w))).
Proof.
  split; [reflexivity|].
  intros Hne. unfold floatMaybe.
  destruct (String.eqb_spec str "") as [E|_]; [contradiction|]. cbn.
  split; [intros v ->|intros ->]; reflexivity.
Qed.

Lemma floatMaybe_contract_witness :
  floatMaybe "2.0" world_init = (Returned 2%float, world_init) /\
  floatMaybe "2.0.1" world_init = (Raised ValueError, world_init).
Proof.
  split.
  - apply (proj2 (floatMaybe_contract "2.0" world_init)); [discriminate|reflexivity].
  - apply (proj2 (floatMaybe_contract "2.0.1" world_init)); [discriminate|reflexivity].
Defined.

(** ** Rows that contribute and rows that do not *)

(** The change of the store made by a line that contributes. *)
Lemma processLine_appends_net_aux (line : string) (w : World)
  (dow hod : Z) (prod cns : float) :
  parsed_row line = Some (dow, hod, prod, cns) ->
  (cns <? 0)%float = true ->
  List.length (rawData w) = 168%nat ->
  0 <= column dow hod <= 167 ->
  let k := Z.to_nat (column dow hod) in
  let net := (- prod - cns)%float in
  let w' := snd (processLine line w) in
  fst (processLine line w) = Returned tt /\
  (exists b, nth_error (rawData w) k = Some b /\
             nth_error (rawData w') k = Some (b ++ [net])%list) /\
  (forall j, j <> k -> nth_error (rawData w') j = nth_error (rawData w) j).
Proof.
  intros Hrow Hneg Hlen Hcol k net w'. subst w'.
  rewrite processLine_run, (line_effect_parsed _ _ _ _ _ _ Hrow), Hneg.
  rewrite py_pos_in_range by lia. fold k. cbn [fst snd evolve rawData put].
  split; [reflexivity|]. split.
  - destruct (nth_error (rawData w) k) as [b|] eqn:E.
    + exists b. split; [reflexivity|].
      now rewrite nth_error_update_at_eq, E.
    + apply nth_error_None in E. lia.
  - intros j Hj. now apply nth_error_update_at_neq.
Qed.

(** C1, as the code has it. A line whose consumption is below 0.0 and whose
    bucket index [(dow - 1) * 24 + hod] lies in [0,167] is processed without
    error: [- prod - cons] is appended to the bucket at that index and every
    other bucket is left as it was. With production 2.0 and consumption
    -5.0 the appended value is 3.0. *)
Theorem processLine_appends_net (line : string) (w : World)
  (dow hod : Z) (prod cns : float) :
  parsed_row line = Some (dow, hod, prod, cns) ->
  (cns <? 0)%float = true ->
  List.length (rawData w) = 168%nat ->
  0 <= column dow hod <= 167 ->
  let k := Z.to_nat (column dow hod) in
  let net := (- prod - cns)%float in
  let w' := snd (processLine line w) in
  fst (processLine line w) = Returned tt /\
  (exists b, nth_error (rawData w) k = Some b /\
             nth_error (rawData w') k = Some (b ++ [net])%list) /\
  (forall j, j <> k -> nth_error (rawData w') j = nth_error (rawData w) j) /\
  (prod = 2%float -> cns = (-5)%float -> net = 3%float).
Proof.
  intros Hrow Hneg Hlen Hcol k net w'.
  destruct (processLine_appends_net_aux line w dow hod prod cns Hrow Hneg Hlen Hcol)
    as (Hres & Hb & Hothers).
  repeat split; try assumption.
  intros -> ->. reflexivity.
Qed.

Lemma processLine_appends_net_witness :
  let w' := snd (processLine "360, 1, 0, 2.0, -5.0" world_init) in
  fst (processLine "360, 1, 0, 2.0, -5.0" world_init) = Returned tt /\
  (exists b, nth_error (rawData world_init) 0 = Some b /\
             nth_error (rawData w') 0 = Some (b ++ [3%float])%list) /\
  (forall j, j <> 0%nat -> nth_error (rawData w') j = nth_error (rawData world_init) j) /\
  (2%float = 2%float -> (-5)%float = (-5)%float -> 3%float = 3%float).
Proof.
  apply (processLine_appends_net "360, 1, 0, 2.0, -5.0" world_init 1 0 2 (-5));
    [reflexivity | reflexivity | reflexivity | cbn; lia].
Defined.

(** C1, as stated, fails outside the week. The line below has consumption
    -5.0, yet its bucket index is 168: indexing the store raises
    [IndexError] and nothing is appended. *)
Lemma out_of_week_row_not_appended :
  parsed_row "360, 8, 0, 2.0, -5.0" = Some (8, 0, 2%float, (-5)%float) /\
  ((-5) <? 0)%float = true /\
  column 8 0 = 168 /\
  processLine "360, 8, 0, 2.0, -5.0" world_init = (Raised IndexError, world_init).
Proof.
  repeat split; vm_compute; reflexivity.
Qed.

(** A line that appends has a consumption field below zero. *)
Lemma line_effect_appends (n : nat) (line : string) res k v says :
  line_effect n line = (res, Some (k, v), says) ->
  exists f4 cns,
    nth_error (PyText.split ", " line) 4 = Some f4 /\
    floatMaybe_value f4 = Some cns /\ (cns <? 0)%float = true.
Proof.
  unfold line_effect.
  destruct (nth_error _ 1) as [f1|]; [|discriminate].
  destruct (PyInt.parse f1); [|discriminate].
  destruct (nth_error _ 2) as [f2|]; [|discriminate].
  destruct (PyInt.parse f2); [|discriminate].
  destruct (nth_error _ 3) as [f3|]; [|discriminate].
  destruct (floatMaybe_value f3); [|discriminate].
  destruct (nth_error _ 4) as [f4|]; [|discriminate].
  destruct (floatMaybe_value f4) as [cns|] eqn:E4; [|discriminate].
  destruct (cns <? 0)%float eqn:Hlt; [|discriminate].
  intros _. now exists f4, cns.
Qed.

(** C5. A line whose consumption field reads as a value greater than or
    equal to 0.0 leaves every bucket as it was; when its other fields can be
    read too, it is processed without error. *)
Theorem nonnegative_consumption_skipped (line : string) (w : World)
  (f4 : string) (cns : float) :
  nth_error (PyText.split ", " line) 4 = Some f4 ->
  floatMaybe_value f4 = Some cns ->
  (0 <=? cns)%float = true ->
  rawData (snd (processLine line w)) = rawData w /\
  (forall dow hod prod,
     parsed_row line = Some (dow, hod, prod, cns) ->
     fst (processLine line w) = Returned tt).
Proof.
  intros Hf4 Hv Hge. apply not_lt_zero_of_ge in Hge. split.
  - rewrite processLine_run.
    destruct (line_effect _ line) as [[res [[k v]|]] says] eqn:E; [|reflexivity].
    apply line_effect_appends in E as (f & c & Hf & Hc & Hlt).
    congruence.
  - intros dow hod prod Hrow.
    rewrite processLine_run, (line_effect_parsed _ _ _ _ _ _ Hrow), Hge.
    reflexivity.
Qed.

Lemma nonnegative_consumption_skipped_witness :
  rawData (snd (processLine "362, 1, 2, 1.5, 0.0" world_init)) = rawData world_init /\
  (forall dow hod prod,
     parsed_row "362, 1, 2, 1.5, 0.0" = Some (dow, hod, prod, 0%float) ->
     fst (processLine "362, 1, 2, 1.5, 0.0" world_init) = Returned tt).
Proof.
  apply (nonnegative_consumption_skipped "362, 1, 2, 1.5, 0.0" world_init "0.0" 0);
    reflexivity.
Defined.

(** C6. A line with an empty production field and consumption -1.0, whose
    bucket lies in the store, is processed without error: 1.0 is appended
    to its bucket and exactly one diagnostic is printed. *)
Theorem empty_production_row (line : string) (w : World)
  (f0 f1 f2 f4 : string) (rest : list string) (dow hod : Z) :
  PyText.split ", " line = f0 :: f1 :: f2 :: "" :: f4 :: rest ->
  PyInt.parse f1 = Some dow ->
  PyInt.parse f2 = Some hod ->
  PyFloat.parse f4 = Some (-1)%float ->
  List.length (rawData w) = 168%nat ->
  0 <= column dow hod <= 167 ->
  let k := Z.to_nat (column dow hod) in
  let w' := snd (processLine line w) in
  fst (processLine line w) = Returned tt /\
  (exists b, nth_error (rawData w) k = Some b /\
             nth_error (rawData w') k = Some (b ++ [1%float])%list) /\
  stdout w' = (stdout w ++ ["failed to float "])%list.
Proof.
  intros Hsplit H1 H2 H4 Hlen Hcol k w'.
  assert (Hne : String.eqb f4 "" = false).
  { destruct (String.eqb_spec f4 "") as [->|]; [discriminate H4|reflexivity]. }
  assert (Hrow : parsed_row line = Some (dow, hod, 0%float, (-1)%float)).
  { unfold parsed_row, floatMaybe_value. now rewrite Hsplit, H1, H2, Hne, H4. }
  destruct (processLine_appends_net_aux line w dow hod 0 (-1) Hrow eq_refl Hlen Hcol)
    as (Hres & Hb & _).
  split; [exact Hres|]. split; [exact Hb|].
  subst w'. rewrite processLine_run, (line_effect_parsed _ _ _ _ _ _ Hrow).
  rewrite py_pos_in_range by lia. cbn [snd evolve stdout].
  unfold row_says, floatMaybe_says. now rewrite Hsplit, Hne.
Qed.

Lemma empty_production_row_witness :
  let w' := snd (processLine "361, 1, 1, , -1.0" world_init) in
  fst (processLine "361, 1, 1, , -1.0" world_init) = Returned tt /\
  (exists b, nth_error (rawData world_init) 1 = Some b /\
             nth_error (rawData w') 1 = Some (b ++ [1%float])%list) /\
  stdout w' = (stdout world_init ++ ["failed to float "])%list.
Proof.
  apply (empty_production_row "361, 1, 1, , -1.0" world_init
           "361" "1" "1" "-1.0" [] 1 1);
    [reflexivity | reflexivity | reflexivity | reflexivity | reflexivity | cbn; lia].
Defined.

(** ** Runs that only append *)

Lemma length_puts upds r : List.length (puts upds r) = List.length r.
Proof.
  revert r; induction upds as [|u upds IH]; intros r; cbn; [reflexivity|].
  unfold puts in IH. now rewrite IH, length_update_at.
Qed.

Lemma puts_app u1 u2 r : puts (u1 ++ u2) r = puts u2 (puts u1 r).
Proof. apply fold_left_app. Qed.

Lemma acts_ret n : acts (ret tt) n (Returned tt) [] [].
Proof. intros w _. unfold ret. now rewrite evolve_id. Qed.

Lemma acts_seq m1 m2 n res u1 s1 u2 s2 :
  acts m1 n (Returned tt) u1 s1 ->
  acts m2 n res u2 s2 ->
  acts (m1 ;; m2) n res (u1 ++ u2) (s1 ++ s2).
Proof.
  intros H1 H2 w Hw. unfold bind. rewrite (H1 w Hw).
  rewrite H2 by (cbn; now rewrite length_puts).
  unfold evolve; cbn. now rewrite puts_app, app_assoc.
Qed.

Lemma acts_seq_raised m1 m2 n e u1 s1 :
  acts m1 n (Raised e) u1 s1 -> acts (m1 ;; m2) n (Raised e) u1 s1.
Proof.
  intros H1 w Hw. unfold bind. now rewrite (H1 w Hw).
Qed.

Lemma acts_for_each {A} (body : A -> M unit) (n : nat) (l : list A) :
  (forall x, exists res upds says, acts (body x) n res upds says) ->
  exists res upds says, acts (for_each l body) n res upds says.
Proof.
  intros Hbody. induction l as [|x l (res & upds & says & IH)]; cbn [for_each].
  - exists (Returned tt), [], []. apply acts_ret.
  - destruct (Hbody x) as ([[]|e] & u1 & s1 & H1).
    + exists res, (u1 ++ upds)%list, (s1 ++ says)%list. now apply acts_seq.
    + exists (Raised e), u1, s1. now apply acts_seq_raised.
Qed.

Lemma acts_processLine (line : string) (n : nat) :
  exists res upds says, acts (processLine line) n res upds says.
Proof.
  destruct (line_effect n line) as [[res upd] says] eqn:E.
  exists res, (match upd with Some u => [u] | None => [] end), says.
  intros w Hw. rewrite processLine_run, Hw, E.
  destruct upd as [[k v]|]; reflexivity.
Qed.

Lemma acts_processFile (fs : FileSystem) (dataFile : string) (n : nat) :
  exists res upds says, acts (processFile fs dataFile) n res upds says.
Proof.
  unfold processFile, readlines.
  destruct (fs_text fs dataFile) as [text|].
  - destruct (acts_for_each processLine n (text_lines text)
                (fun line => acts_processLine line n))
      as (res & upds & says & H).
    exists res, upds, says. intros w Hw. unfold bind, ret. now apply H.
  - exists (Raised OSError), [], []. intros w _.
    unfold bind, raise. now rewrite evolve_id.
Qed.

Lemma acts_collectData (fs : FileSystem) (dataDir : string) (n : nat) :
  exists res upds says, acts (collectData fs dataDir) n res upds says.
Proof.
  apply acts_for_each. intros p. apply acts_processFile.
Qed.

(** *** Appending to a store and to a fresh one *)

Lemma app_each_fresh (s : list (list float)) :
  app_each s (repeat [] (List.length s)) = s.
Proof.
  induction s as [|b s IH]; cbn; [reflexivity|]. now rewrite app_nil_r, IH.
Qed.

Lemma length_app_each s d :
  List.length s = List.length d -> List.length (app_each s d) = List.length s.
Proof.
  revert d; induction s as [|b s IH]; intros [|a d] H; cbn in *; try congruence.
  now rewrite IH by congruence.
Qed.

Lemma nth_error_app_each s d i b a :
  nth_error s i = Some b -> nth_error d i = Some a ->
  nth_error (app_each s d) i = Some (b ++ a)%list.
Proof.
  revert d i; induction s as [|b0 s IH]; intros [|a0 d] [|i]; cbn;
    try discriminate.
  - now intros [= ->] [= ->].
  - apply IH.
Qed.

Lemma update_at_app_each k v s d :
  update_at k (fun b => (b ++ [v])%list) (app_each s d) =
  app_each s (update_at k (fun b => (b ++ [v])%list) d).
Proof.
  revert k d; induction s as [|b s IH]; intros [|k] [|a d]; cbn;
    try reflexivity.
  - now rewrite app_assoc.
  - now rewrite IH.
Qed.

Lemma puts_app_each upds s d : puts upds (app_each s d) = app_each s (puts upds d).
Proof.
  revert d; induction upds as [|u upds IH]; intros d; cbn; [reflexivity|].
  rewrite update_at_app_each. apply IH.
Qed.

(** What a run appends to a store is what it appends to a fresh one. *)
Lemma puts_contributions upds s :
  puts upds s = app_each s (puts upds (repeat [] (List.length s))).
Proof.
  now rewrite <- puts_app_each, app_each_fresh.
Qed.

Lemma acts_contributions m n res upds says (w : World) :
  acts m n res upds says ->
  List.length (rawData w) = n ->
  rawData (snd (m w)) = app_each (rawData w) (rawData (snd (m (fresh n)))) /\
  fst (m w) = fst (m (fresh n)).
Proof.
  intros H Hw.
  rewrite (H w Hw), (H (fresh n)) by (cbn; apply repeat_length).
  cbn. split; [|reflexivity]. rewrite <- Hw. apply puts_contributions.
Qed.

Lemma acts_keeps_buckets m (w : World) :
  (forall n, exists res upds says, acts m n res upds says) ->
  List.length (rawData (snd (m w))) = List.length (rawData w) /\
  (forall i b, nth_error (rawData w) i = Some b ->
     exists added, nth_error (rawData (snd (m w))) i = Some (b ++ added)%list).
Proof.
  intros Hm. destruct (Hm (List.length (rawData w))) as (res & upds & says & H).
  rewrite (H w eq_refl). cbn [snd evolve rawData]. split.
  - apply length_puts.
  - intros i b Hb. rewrite puts_contributions.
    destruct (nth_error (puts upds (repeat [] (List.length (rawData w)))) i)
      as [a|] eqn:Ea.
    + exists a. now apply nth_error_app_each.
    + apply nth_error_None in Ea. rewrite length_puts, repeat_length in Ea.
      assert (i < List.length (rawData w))%nat
        by (apply nth_error_Some; congruence).
      lia.
Qed.

(** ** The store keeps its 168 buckets *)

(** C10. The store is allocated with 168 empty buckets, and processing a
    line, a file or a directory keeps the buckets, whether it ends normally
    or raises; so after aggregation from the initial store there are still
    168 buckets. *)
Theorem store_keeps_168_buckets :
  List.length rawData_init = 168%nat /\
  (forall b, In b rawData_init -> b = []) /\
  (forall line, keeps_buckets (processLine line)) /\
  (forall fs dataFile, keeps_buckets (processFile fs dataFile)) /\
  (forall fs dataDir, keeps_buckets (collectData fs dataDir)) /\
  (forall fs dataDir,
     List.length (rawData (snd (collectData fs dataDir world_init))) = 168%nat).
Proof.
  split; [reflexivity|]. split; [intros b Hb; now apply repeat_spec in Hb|].
  assert (HL : forall line, keeps_buckets (processLine line)).
  { intros line w. apply acts_keeps_buckets. intros n. apply acts_processLine. }
  assert (HF : forall fs dataFile, keeps_buckets (processFile fs dataFile)).
  { intros fs f w. apply acts_keeps_buckets. intros n. apply acts_processFile. }
  assert (HC : forall fs dataDir, keeps_buckets (collectData fs dataDir)).
  { intros fs d w. apply acts_keeps_buckets. intros n. apply acts_collectData. }
  repeat split; try apply HL; try apply HF; try apply HC.
  intros fs d. now rewrite (proj1 (HC fs d world_init)).
Qed.

(** ** Processing a file twice *)

(** C8. Processing a file appends to each bucket what processing it on a
    fresh store puts there; processing it again appends the same values
    once more. So when the file contributes anything, the second run
    changes the store again. *)
Theorem processFile_twice (fs : FileSystem) (dataFile : string) (w : World) :
  let contributions :=
    rawData (snd (processFile fs dataFile (fresh (List.length (rawData w))))) in
  let once := snd (processFile fs dataFile w) in
  let twice := snd (processFile fs dataFile once) in
  rawData once = app_each (rawData w) contributions /\
  rawData twice = app_each (app_each (rawData w) contributions) contributions /\
  (forall i b, nth_error (rawData w) i = Some b ->
     exists a, nth_error contributions i = Some a /\
               nth_error (rawData once) i = Some (b ++ a)%list /\
               nth_error (rawData twice) i = Some (b ++ a ++ a)%list) /\
  ((exists i a, nth_error contributions i = Some a /\ a <> []) ->
   rawData twice <> rawData once).
Proof.
  intros contributions once twice.
  destruct (acts_processFile fs dataFile (List.length (rawData w)))
    as (res & upds & says & H).
  assert (Hlen : List.length contributions = List.length (rawData w)).
  { subst contributions. rewrite (H (fresh _)) by (cbn; apply repeat_length).
    cbn. now rewrite length_puts, repeat_length. }
  assert (H1 : rawData once = app_each (rawData w) contributions).
  { apply (acts_contributions _ _ _ _ _ w H eq_refl). }
  assert (Hlen1 : List.length (rawData once) = List.length (rawData w)).
  { rewrite H1. now apply length_app_each. }
  assert (H2 : rawData twice = app_each (rawData once) contributions).
  { apply (acts_contributions _ _ _ _ _ once H Hlen1). }
  assert (Hnth : forall i b, nth_error (rawData w) i = Some b ->
     exists a, nth_error contributions i = Some a /\
               nth_error (rawData once) i = Some (b ++ a)%list /\
               nth_error (rawData twice) i = Some (b ++ a ++ a)%list).
  { intros i b Hb.
    destruct (nth_error contributions i) as [a|] eqn:Ea.
    - exists a. split; [reflexivity|].
      assert (Ho : nth_error (rawData once) i = Some (b ++ a)%list)
        by (rewrite H1; now apply nth_error_app_each).
      split; [exact Ho|].
      rewrite H2, app_assoc. now apply nth_error_app_each.
    - apply nth_error_None in Ea.
      assert (i < List.length (rawData w))%nat
        by (apply nth_error_Some; congruence).
      lia. }
  split; [exact H1|]. split; [now rewrite H2, H1|]. split; [exact Hnth|].
  intros (i & a & Ha & Hne) Heq.
  destruct (nth_error (rawData w) i) as [b|] eqn:Eb.
  - destruct (Hnth i b Eb) as (a' & Ha' & Ho & Ht).
    rewrite Heq, Ho in Ht. injection Ht as Ht.
    assert (a' = a) by congruence. subst a'.
    apply (f_equal (@List.length float)) in Ht.
    rewrite !length_app in Ht.
    destruct a; [congruence|cbn in Ht; lia].
  - apply nth_error_None in Eb.
    assert (i < List.length contributions)%nat
      by (apply nth_error_Some; congruence).
    lia.
Qed.

Lemma processFile_twice_witness :
  rawData (snd (processFile OneGame.fs OneGame.dataFile
                  (snd (processFile OneGame.fs OneGame.dataFile world_init)))) <>
  rawData (snd (processFile OneGame.fs OneGame.dataFile world_init)).
Proof.
  apply (proj2 (proj2 (proj2
           (processFile_twice OneGame.fs OneGame.dataFile world_init)))).
  exists 0%nat, [3%float]. split; [reflexivity|discriminate].
Defined.

Lemma store_keeps_168_buckets_witness :
  List.length (rawData (snd (processLine "360, 1, 0, 2.0, -5.0" world_init))) = 168%nat /\
  exists added,
    nth_error (rawData (snd (processLine "360, 1, 0, 2.0, -5.0" world_init))) 0
    = Some ([] ++ added)%list.
Proof.
  destruct store_keeps_168_buckets as (_ & _ & HL & _).
  destruct (HL "360, 1, 0, 2.0, -5.0" world_init) as (Hlen & Hpre).
  split; [exact Hlen|]. apply Hpre. reflexivity.
Defined.

(** ** File discovery *)

Lemma chars_app (a b : string) :
  PyText.chars (a ++ b) = (PyText.chars a ++ PyText.chars b)%list.
Proof.
  unfold PyText.chars.
  induction a as [|c a IH]; cbn; [reflexivity|]. now rewrite IH.
Qed.

(** A pattern without [*] and [?] matches itself only. *)
Lemma fnmatch_literal (lit nm : list ascii) :
  Forall (fun c => Ascii.eqb c "*" = false /\ Ascii.eqb c "?" = false) lit ->
  fnmatch lit nm = true <-> nm = lit.
Proof.
  intros Hlit. revert nm.
  induction Hlit as [|c lit [Hs Hq] _ IH]; intros [|d nm]; cbn [fnmatch];
    rewrite ?Hs, ?Hq; try (split; [discriminate|congruence]);
    try (split; reflexivity).
  cbn [orb]. rewrite andb_true_iff, IH. split.
  - intros [Hc ->]. apply Ascii.eqb_eq in Hc. now subst.
  - intros [= -> ->]. split; [apply Ascii.eqb_refl|reflexivity].
Qed.

(** A leading [*] matches any run of characters before the rest. *)
Lemma fnmatch_star (pat nm : list ascii) :
  fnmatch ("*"%char :: pat) nm = true <->
  exists pre suf, nm = (pre ++ suf)%list /\ fnmatch pat suf = true.
Proof.
  cbn [fnmatch]. change (Ascii.eqb "*" "*") with true. cbv iota.
  induction nm as [|a nm IH].
  - rewrite orb_false_r. split.
    + intros H. now exists [], [].
    + intros (pre & suf & E & H). symmetry in E.
      apply app_eq_nil in E as [-> ->]. exact H.
  - rewrite orb_true_iff, IH. split.
    + intros [H|(pre & suf & -> & H)].
      * now exists [], (a :: nm).
      * now exists (a :: pre), suf.
    + intros ([|b pre] & suf & E & H); cbn in E.
      * left. now subst.
      * right. injection E as -> ->. now exists pre, suf.
Qed.

(** The names [dataIter] selects are those ending in [-prod-cons.data]. *)
Lemma fnmatch_prod_cons (n : string) :
  fnmatch (PyText.chars "*-prod-cons.data") (PyText.chars n) = true <->
  exists pre : string, n = pre ++ "-prod-cons.data".
Proof.
  change (PyText.chars "*-prod-cons.data")
    with ("*"%char :: PyText.chars "-prod-cons.data").
  rewrite fnmatch_star. split.
  - intros (pre & suf & E & H).
    apply fnmatch_literal in H; [|repeat constructor]. subst suf.
    exists (string_of_list_ascii pre).
    rewrite <- (string_of_list_ascii_of_string n).
    apply (f_equal string_of_list_ascii) in E.
    unfold PyText.chars in E. rewrite E.
    rewrite <- (string_of_list_ascii_of_string
                  (string_of_list_ascii pre ++ "-prod-cons.data")).
    f_equal. fold PyText.chars. rewrite chars_app. unfold PyText.chars.
    now rewrite list_ascii_of_string_of_list_ascii.
  - intros (pre & ->). exists (PyText.chars pre), (PyText.chars "-prod-cons.data").
    split; [apply chars_app|].
    apply fnmatch_literal; [repeat constructor|reflexivity].
Qed.

Lemma take_items_pending (fs : FileSystem) (g : generator) (fuel : nat) :
  (List.length (pending fs g) <= fuel)%nat ->
  take_items fs fuel g = pending fs g.
Proof.
  assert (H : forall l fuel, (List.length l <= fuel)%nat ->
                             take_items fs fuel (Running l) = l).
  { induction l as [|p l IH]; intros [|k] Hk; cbn in *; try reflexivity; try lia.
    f_equal. apply IH. lia. }
  destruct g as [dir pattern|rest]; [|apply H].
  cbn [pending]. destruct fuel as [|k]; cbn [take_items next].
  - destruct (glob fs dir pattern); [reflexivity|cbn; lia].
  - destruct (glob fs dir pattern) as [|p l]; [reflexivity|].
    cbn. intros Hk. f_equal. apply H. lia.
Qed.

(** C7, as the code has it. [dataIter] builds a generator without reading
    the directory. Iterating it yields, in enumeration order, exactly the
    entries of the directory whose names end in [-prod-cons.data]; the items
    come one by one from [next], which then reports the end. The generator
    is consumed by the iteration: iterated again it yields nothing. A new
    call of [dataIter] on an unchanged directory yields the same paths, and
    an empty directory yields none. *)
Theorem dataIter_single_pass (fs : FileSystem) (dataDir : string) :
  let g := dataIter dataDir in
  let paths := fst (iterate fs g) in
  let g' := snd (iterate fs g) in
  (forall p, In p paths <->
     parent p = dataDir /\ In (name p) (fs_entries fs dataDir) /\
     exists pre : string, name p = pre ++ "-prod-cons.data") /\
  map name paths =
    filter (fun n => fnmatch (PyText.chars "*-prod-cons.data") (PyText.chars n))
           (fs_entries fs dataDir) /\
  take_items fs (S (List.length paths)) g = paths /\
  next fs g' = (None, g') /\
  fst (iterate fs g') = [] /\
  (forall fs', fs_entries fs' dataDir = fs_entries fs dataDir ->
     fst (iterate fs' (dataIter dataDir)) = paths) /\
  (fs_entries fs dataDir = [] -> paths = []).
Proof.
  cbn [dataIter iterate fst snd pending]. unfold glob.
  split; [|split; [|split; [|split; [|split; [|split]]]]].
  - intros [d n]. rewrite in_map_iff. cbn [parent name]. split.
    + intros (n' & [= <- <-] & Hin). apply filter_In in Hin as [Hin Hm].
      split; [reflexivity|]. split; [exact Hin|]. now apply fnmatch_prod_cons.
    + intros (-> & Hin & Hsuf). exists n. split; [reflexivity|].
      apply filter_In. split; [exact Hin|]. now apply fnmatch_prod_cons.
  - rewrite map_map. cbn [name]. apply map_id.
  - apply (take_items_pending fs (Unstarted dataDir "*-prod-cons.data")).
    cbn [pending]. unfold glob. lia.
  - reflexivity.
  - reflexivity.
  - intros fs' E. now rewrite E.
  - intros E. now rewrite E.
Qed.

Lemma dataIter_single_pass_witness :
  fst (iterate OneGame.fs (dataIter "elsewhere")) = [].
Proof.
  apply (proj2 (proj2 (proj2 (proj2 (proj2 (proj2
           (dataIter_single_pass OneGame.fs "elsewhere"))))))).
  reflexivity.
Defined.

(** C7, as stated, fails: the sequence cannot be iterated again from its
    start. The generator for the directory [games] first yields the path of
    its data file; iterated a second time it yields nothing. *)
Lemma generator_not_restartable :
  let g := dataIter "games" in
  fst (iterate OneGame.fs g) =
    [{| parent := "games"; name := "g1-prod-cons.data" |}] /\
  fst (iterate OneGame.fs (snd (iterate OneGame.fs g))) = [].
Proof.
  split; reflexivity.
Qed.

(** ** Summarisation *)

Lemma plotMeans_run (w : World) :
  plotMeans w =
  (Returned tt,
   {| rawData := rawData w;
      stdout := (stdout w ++
                 [String.concat " " ["Shape:"; repr_tuple (Numpy.shape (rawData w))]])%list;
      shown := (shown w ++
                [{| chart_x := range (hd O (Numpy.shape (rawData w)));
                    chart_y := map Numpy.mean (rawData w);
                    chart_yerr := map Numpy.std (rawData w) |}])%list |}).
Proof. reflexivity. Qed.

(** C9. The mean and the standard deviation of an empty bucket are NaN.
    [plotMeans] does not raise on them: it ends normally and the figure it
    shows has NaN as mean and as error at the position of every empty
    bucket. *)
Theorem empty_bucket_statistics (w : World) :
  Numpy.mean [] = nan /\
  Numpy.std [] = nan /\
  fst (plotMeans w) = Returned tt /\
  (forall i, nth_error (rawData w) i = Some [] ->
     exists c, shown (snd (plotMeans w)) = (shown w ++ [c])%list /\
               nth_error (chart_y c) i = Some nan /\
               nth_error (chart_yerr c) i = Some nan).
Proof.
  split; [reflexivity|]. split; [reflexivity|]. split; [reflexivity|].
  intros i Hi. rewrite plotMeans_run. cbn [snd shown].
  eexists. split; [reflexivity|]. cbn [chart_y chart_yerr].
  rewrite !nth_error_map, Hi. split; reflexivity.
Qed.

Lemma empty_bucket_statistics_witness :
  exists c, shown (snd (plotMeans world_init)) = (shown world_init ++ [c])%list /\
            nth_error (chart_y c) 167 = Some nan /\
            nth_error (chart_yerr c) 167 = Some nan.
Proof.
  apply (proj2 (proj2 (proj2 (empty_bucket_statistics world_init))) 167%nat).
  reflexivity.
Defined.

(** ** End to end *)

(** C3. A directory holds the single file [g1-prod-cons.data], whose single
    line reads as day 1, hour 0, production 2.0, consumption -5.0. Starting
    from the initial store, aggregation ends normally with bucket 0 equal to
    [3.0] and the 167 other buckets empty; summarisation then ends normally
    and shows mean 3.0 and standard deviation 0.0 for bucket 0. *)
Theorem single_row_end_to_end (fs : FileSystem) (dataDir text line : string) :
  fs_entries fs dataDir = ["g1-prod-cons.data"] ->
  fs_text fs (Path_str {| parent := dataDir; name := "g1-prod-cons.data" |}) = Some text ->
  text_lines text = [line] ->
  parsed_row line = Some (1, 0, 2%float, (-5)%float) ->
  let w1 := snd (collectData fs dataDir world_init) in
  let w2 := snd (plotMeans w1) in
  fst (collectData fs dataDir world_init) = Returned tt /\
  rawData w1 = [3%float] :: repeat [] 167 /\
  fst (plotMeans w1) = Returned tt /\
  exists c, shown w2 = [c] /\
            nth_error (chart_y c) 0 = Some 3%float /\
            nth_error (chart_yerr c) 0 = Some 0%float.
Proof.
  intros Hdir Htext Hlines Hrow w1 w2.
  assert (Hrun : collectData fs dataDir world_init =
                 (Returned tt,
                  evolve (put (Some (0%nat, 3%float))) (row_says line) world_init)).
  { unfold collectData, iterate, dataIter, pending, glob. rewrite Hdir.
    cbn [filter map fst for_each].
    change (fnmatch _ _) with true. cbv iota. cbn [map for_each].
    unfold bind at 1. unfold processFile, readlines.
    rewrite Htext. unfold bind at 1. unfold ret at 1. rewrite Hlines.
    cbn [for_each]. unfold bind at 1.
    rewrite processLine_run, (line_effect_parsed _ _ _ _ _ _ Hrow).
    reflexivity. }
  subst w2 w1. rewrite Hrun. cbn [fst snd].
  split; [reflexivity|]. split; [reflexivity|].
  rewrite plotMeans_run. cbn [fst snd shown].
  split; [reflexivity|]. eexists. split; [reflexivity|].
  split; reflexivity.
Qed.

Lemma single_row_end_to_end_witness :
  let w1 := snd (collectData OneGame.fs "games" world_init) in
  let w2 := snd (plotMeans w1) in
  fst (collectData OneGame.fs "games" world_init) = Returned tt /\
  rawData w1 = [3%float] :: repeat [] 167 /\
  fst (plotMeans w1) = Returned tt /\
  exists c, shown w2 = [c] /\
            nth_error (chart_y c) 0 = Some 3%float /\
            nth_error (chart_yerr c) 0 = Some 0%float.
Proof.
  apply (single_row_end_to_end OneGame.fs "games"
           ("360, 1, 0, 2.0, -5.0" ++ OneGame.nl)
           ("360, 1, 0, 2.0, -5.0" ++ OneGame.nl));
    reflexivity.
Defined.

(** * Further properties of the aggregation *)

(** ** Bucket indices outside the week *)

(** X1. A contributing row whose bucket index is negative, down to -168,
    is not refused: as with any Python list index, its value goes to the
    bucket counted from the end of the store, at position index + 168. *)
Theorem negative_column_wraps (line : string) (w : World)
  (dow hod : Z) (prod cns : float) :
  parsed_row line = Some (dow, hod, prod, cns) ->
  (cns <? 0)%float = true ->
  List.length (rawData w) = 168%nat ->
  -168 <= column dow hod < 0 ->
  let k := Z.to_nat (column dow hod + 168) in
  let w' := snd (processLine line w) in
  fst (processLine line w) = Returned tt /\
  (exists b, nth_error (rawData w) k = Some b /\
             nth_error (rawData w') k = Some (b ++ [(- prod - cns)%float])%list) /\
  (forall j, j <> k -> nth_error (rawData w') j = nth_error (rawData w) j).
Proof.
  intros Hrow Hneg Hlen Hcol k w'. subst w'.
  rewrite processLine_run, (line_effect_parsed _ _ _ _ _ _ Hrow), Hneg, Hlen.
  assert (Hpos : py_pos 168 (column dow hod) = Some k).
  { unfold py_pos. destruct (Z.leb_spec 0 (column dow hod)); [lia|].
    destruct (Z.leb_spec (- Z.of_nat 168) (column dow hod)); [reflexivity|lia]. }
  rewrite Hpos. cbn [fst snd evolve rawData put].
  split; [reflexivity|]. split.
  - destruct (nth_error (rawData w) k) as [b|] eqn:E.
    + exists b. split; [reflexivity|]. now rewrite nth_error_update_at_eq, E.
    + apply nth_error_None in E. lia.
  - intros j Hj. now apply nth_error_update_at_neq.
Qed.

Lemma negative_column_wraps_witness :
  let w' := snd (processLine "360, 0, 23, 2.0, -5.0" world_init) in
  fst (processLine "360, 0, 23, 2.0, -5.0" world_init) = Returned tt /\
  (exists b, nth_error (rawData world_init) 167 = Some b /\
             nth_error (rawData w') 167 = Some (b ++ [(- 2 - (-5))%float])%list) /\
  (forall j, j <> 167%nat -> nth_error (rawData w') j = nth_error (rawData world_init) j).
Proof.
  apply (negative_column_wraps "360, 0, 23, 2.0, -5.0" world_init 0 23 2 (-5));
    [reflexivity | reflexivity | reflexivity | cbn; lia].
Defined.

(** X2. A contributing row whose bucket index is 168 or more, or below
    -168, raises [IndexError]. By then both numeric fields have been read:
    their diagnostics are printed, and the store is as before. *)
Theorem column_out_of_store_raises (line : string) (w : World)
  (dow hod : Z) (prod cns : float) :
  parsed_row line = Some (dow, hod, prod, cns) ->
  (cns <? 0)%float = true ->
  List.length (rawData w) = 168%nat ->
  column dow hod < -168 \/ 167 < column dow hod ->
  fst (processLine line w) = Raised IndexError /\
  rawData (snd (processLine line w)) = rawData w /\
  stdout (snd (processLine line w)) = (stdout w ++ row_says line)%list.
Proof.
  intros Hrow Hneg Hlen Hcol.
  rewrite processLine_run, (line_effect_parsed _ _ _ _ _ _ Hrow), Hneg, Hlen.
  assert (Hpos : py_pos 168 (column dow hod) = None).
  { unfold py_pos. destruct (Z.leb_spec 0 (column dow hod)).
    - destruct (Z.ltb_spec (column dow hod) (Z.of_nat 168)); [lia|reflexivity].
    - destruct (Z.leb_spec (- Z.of_nat 168) (column dow hod)); [lia|reflexivity]. }
  rewrite Hpos. repeat split.
Qed.

Lemma column_out_of_store_raises_witness :
  fst (processLine "360, 8, 0, , -5.0" world_init) = Raised IndexError /\
  rawData (snd (processLine "360, 8, 0, , -5.0" world_init)) = rawData world_init /\
  stdout (snd (processLine "360, 8, 0, , -5.0" world_init))
  = (stdout world_init ++ row_says "360, 8, 0, , -5.0")%list.
Proof.
  apply (column_out_of_store_raises "360, 8, 0, , -5.0" world_init 8 0 0 (-5));
    [reflexivity | reflexivity | reflexivity | right; cbn; lia].
Defined.

(** ** Which rows contribute *)

(** X3. A readable row whose bucket lies in the store changes the store
    exactly when its consumption is below zero. Rows with consumption 0.0,
    -0.0, a positive number or NaN are all skipped. *)
Theorem row_changes_store_iff_negative (line : string) (w : World)
  (dow hod : Z) (prod cns : float) :
  parsed_row line = Some (dow, hod, prod, cns) ->
  List.length (rawData w) = 168%nat ->
  0 <= column dow hod <= 167 ->
  rawData (snd (processLine line w)) = rawData w <-> (cns <? 0)%float = false.
Proof.
  intros Hrow Hlen Hcol. split.
  - intros Heq. destruct (cns <? 0)%float eqn:Hneg; [|reflexivity].
    destruct (processLine_appends_net_aux line w dow hod prod cns
                Hrow Hneg Hlen Hcol) as (_ & (b & Hb & Hb') & _).
    rewrite Heq, Hb in Hb'. injection Hb' as Hb'.
    apply (f_equal (@List.length float)) in Hb'.
    rewrite length_app in Hb'. cbn in Hb'. lia.
  - intros Hneg.
    rewrite processLine_run, (line_effect_parsed _ _ _ _ _ _ Hrow), Hneg.
    reflexivity.
Qed.

Lemma row_changes_store_iff_negative_witness :
  rawData (snd (processLine "360, 1, 0, 2.0, nan" world_init)) = rawData world_init
  <-> (nan <? 0)%float = false.
Proof.
  apply (row_changes_store_iff_negative "360, 1, 0, 2.0, nan" world_init 1 0 2 nan);
    [reflexivity | reflexivity | cbn; lia].
Defined.

(** ** Malformed rows *)

Lemma line_effect_raised (n : nat) (line : string) e upd says :
  line_effect n line = (Raised e, upd, says) ->
  upd = None /\ (e = IndexError \/ e = ValueError).
Proof.
  unfold line_effect.
  repeat match goal with
         | |- context [match ?x with _ => _ end] => destruct x
         end;
    intros [= <- <- <-] || intros [= <- <-]; auto.
Qed.

(** X4. A line with fewer than five fields never ends normally and leaves
    the store as it was; a line with a single field, such as a blank line or
    a line whose fields are separated by commas without spaces, raises
    [IndexError] before anything is printed. *)
Theorem short_row_raises (line : string) (w : World) :
  (List.length (PyText.split ", " line) < 5)%nat ->
  (exists e, fst (processLine line w) = Raised e) /\
  rawData (snd (processLine line w)) = rawData w /\
  ((List.length (PyText.split ", " line) <= 1)%nat ->
   processLine line w = (Raised IndexError, w)).
Proof.
  intros Hlen. rewrite processLine_run.
  destruct (line_effect (List.length (rawData w)) line) as [[res upd] says] eqn:E.
  assert (Hres : exists e, res = Raised e).
  { revert E. unfold line_effect.
    destruct (PyText.split ", " line) as [|f0 [|f1 [|f2 [|f3 [|f4 r]]]]];
      cbn [List.length nth_error] in *; try lia;
      repeat match goal with
             | |- context [match ?x with _ => _ end] => destruct x
             end;
      intros [= <- _ _]; eauto. }
  destruct Hres as (e & ->).
  destruct (line_effect_raised _ _ _ _ _ E) as (-> & _).
  cbn [fst snd evolve rawData put].
  split; [now exists e|]. split; [reflexivity|].
  intros H1. revert E. unfold line_effect.
  destruct (PyText.split ", " line) as [|f0 [|f1 r]];
    cbn [List.length nth_error] in *; try lia;
    intros [= <- <-]; now rewrite evolve_id.
Qed.

Lemma short_row_raises_witness :
  (exists e, fst (processLine "" world_init) = Raised e) /\
  rawData (snd (processLine "" world_init)) = rawData world_init /\
  ((List.length (PyText.split ", " "") <= 1)%nat ->
   processLine "" world_init = (Raised IndexError, world_init)).
Proof.
  apply (short_row_raises "" world_init). cbn. lia.
Defined.

(** X5. Only fields 1 to 4 of a line are read: two lines that agree on
    them behave alike, whatever their first field (the timeslot) and
    whatever follows the fifth field. *)
Theorem only_fields_1_to_4_matter (line line' : string) (w : World)
  (f0 g0 f1 f2 f3 f4 : string) (rest rest' : list string) :
  PyText.split ", " line = f0 :: f1 :: f2 :: f3 :: f4 :: rest ->
  PyText.split ", " line' = g0 :: f1 :: f2 :: f3 :: f4 :: rest' ->
  processLine line w = processLine line' w.
Proof.
  intros H H'. rewrite !processLine_run. unfold line_effect.
  rewrite H, H'. reflexivity.
Qed.

Lemma only_fields_1_to_4_matter_witness :
  processLine "360, 1, 0, 2.0, -5.0" world_init
  = processLine "game-7/361, 1, 0, 2.0, -5.0, note, more" world_init.
Proof.
  apply (only_fields_1_to_4_matter _ _ world_init
           "360" "game-7/361" "1" "0" "2.0" "-5.0" [] ["note"; "more"]);
    reflexivity.
Defined.

Lemma processLine_raised (line : string) (w : World) (e : exn) :
  fst (processLine line w) = Raised e ->
  rawData (snd (processLine line w)) = rawData w /\
  (e = IndexError \/ e = ValueError).
Proof.
  rewrite processLine_run.
  destruct (line_effect (List.length (rawData w)) line) as [[res upd] says] eqn:E.
  cbn [fst snd]. intros ->.
  destruct (line_effect_raised _ _ _ _ _ E) as (-> & He).
  split; [reflexivity|exact He].
Qed.

(** X6. A line that raises has appended nothing, and what it raises is
    [IndexError] or [ValueError]: the store never holds part of a row that
    failed. *)
Theorem failing_line_appends_nothing (line : string) (w : World) (e : exn) :
  fst (processLine line w) = Raised e ->
  rawData (snd (processLine line w)) = rawData w /\
  (e = IndexError \/ e = ValueError).
Proof.
  exact (processLine_raised line w e).
Qed.

Lemma failing_line_appends_nothing_witness :
  rawData (snd (processLine "360, Mon, 0, 2.0, -5.0" world_init)) = rawData world_init /\
  (ValueError = IndexError \/ ValueError = ValueError).
Proof.
  apply (failing_line_appends_nothing "360, Mon, 0, 2.0, -5.0" world_init ValueError).
  reflexivity.
Defined.

(** ** Files that fail *)

Lemma for_each_app {A} (l1 l2 : list A) (body : A -> M unit) (w : World) :
  for_each (l1 ++ l2) body w =
  match for_each l1 body w with
  | (Returned _, w1) => for_each l2 body w1
  | (Raised e, w1) => (Raised e, w1)
  end.
Proof.
  revert w; induction l1 as [|x l1 IH]; intros w; cbn [app for_each].
  - reflexivity.
  - unfold bind. destruct (body x w) as [[[]|e] w1]; [apply IH|reflexivity].
Qed.

(** X7. Processing a file stops at its first line that raises. The lines
    before it have been aggregated and stay so; the failing line adds
    nothing; the lines after it are never read. *)
Theorem processFile_stops_at_failing_line (fs : FileSystem) (dataFile text : string)
  (before after : list string) (bad : string) (w : World) (e : exn) :
  fs_text fs dataFile = Some text ->
  text_lines text = (before ++ bad :: after)%list ->
  fst (for_each before processLine w) = Returned tt ->
  let w1 := snd (for_each before processLine w) in
  fst (processLine bad w1) = Raised e ->
  processFile fs dataFile w = (Raised e, snd (processLine bad w1)) /\
  rawData (snd (processFile fs dataFile w)) = rawData w1.
Proof.
  intros Htext Hlines Hbefore w1 Hbad.
  assert (Hrun : processFile fs dataFile w = (Raised e, snd (processLine bad w1))).
  { unfold processFile, readlines. rewrite Htext. unfold bind at 1, ret at 1.
    rewrite Hlines, for_each_app. subst w1.
    destruct (for_each before processLine w) as [[[]|e0] w1]; [|discriminate].
    cbn [for_each snd] in *. unfold bind.
    destruct (processLine bad w1) as [[[]|e1] w2]; cbn [fst snd] in *;
      congruence. }
  split; [exact Hrun|]. rewrite Hrun. cbn [snd].
  now apply (processLine_raised bad w1 e).
Qed.

Lemma processFile_stops_at_failing_line_witness :
  let fs := {| fs_entries := fun _ => [];
               fs_text := fun _ =>
                 Some ("360, 1, 0, 2.0, -5.0" ++ OneGame.nl ++ OneGame.nl ++
                       "362, 1, 2, 1.0, -4.0" ++ OneGame.nl) |} in
  let w1 := snd (for_each ["360, 1, 0, 2.0, -5.0" ++ OneGame.nl] processLine world_init) in
  processFile fs "g" world_init = (Raised IndexError, snd (processLine OneGame.nl w1)) /\
  rawData (snd (processFile fs "g" world_init)) = rawData w1.
Proof.
  intros fs.
  apply (processFile_stops_at_failing_line fs "g"
           ("360, 1, 0, 2.0, -5.0" ++ OneGame.nl ++ OneGame.nl ++
            "362, 1, 2, 1.0, -4.0" ++ OneGame.nl)
           ["360, 1, 0, 2.0, -5.0" ++ OneGame.nl]
           ["362, 1, 2, 1.0, -4.0" ++ OneGame.nl]
           OneGame.nl world_init IndexError);
    reflexivity.
Defined.

Lemma for_each_processLine_raised (lines : list string) (w : World) (e : exn) :
  fst (for_each lines processLine w) = Raised e ->
  e = IndexError \/ e = ValueError.
Proof.
  revert w; induction lines as [|line lines IH]; intros w; cbn [for_each].
  - discriminate.
  - unfold bind. destruct (processLine line w) as [[[]|e0] w1] eqn:E.
    + apply IH.
    + cbn [fst]. intros [= <-].
      apply (processLine_raised line w e0). now rewrite E.
Qed.

(** X8. Processing a file raises [OSError] exactly when the file cannot be
    opened, and then the world is left as it was: no line of a file that
    opens can raise it. *)
Theorem processFile_OSError_iff_unopened (fs : FileSystem) (dataFile : string)
  (w : World) :
  (fst (processFile fs dataFile w) = Raised OSError <-> fs_text fs dataFile = None) /\
  (fs_text fs dataFile = None -> processFile fs dataFile w = (Raised OSError, w)).
Proof.
  unfold processFile, readlines.
  destruct (fs_text fs dataFile) as [text|].
  - split; [|discriminate]. split; [|discriminate].
    unfold bind at 1, ret at 1. intros H.
    apply for_each_processLine_raised in H as [H|H]; discriminate.
  - split; [|reflexivity]. split; reflexivity.
Qed.

Lemma processFile_OSError_iff_unopened_witness :
  processFile OneGame.fs "games/g2-prod-cons.data" world_init
  = (Raised OSError, world_init).
Proof.
  apply (proj2 (processFile_OSError_iff_unopened OneGame.fs
                  "games/g2-prod-cons.data" world_init)).
  reflexivity.
Defined.

(** ** Counting the values of a file *)

Lemma total_samples_update_at (k : nat) (v : float) (r : list (list float)) :
  (k < List.length r)%nat ->
  total_samples (update_at k (fun b => (b ++ [v])%list) r) = S (total_samples r).
Proof.
  assert (Hcons : forall (x : nat) l, list_sum (x :: l) = (x + list_sum l)%nat)
    by reflexivity.
  unfold total_samples.
  revert k; induction r as [|b r IH]; intros [|k] Hk;
    cbn [List.length update_at map] in *; try lia; rewrite !Hcons.
  - rewrite length_app. cbn [List.length]. lia.
  - apply Nat.succ_lt_mono in Hk. rewrite (IH k Hk). lia.
Qed.

Lemma processLine_valid_row (line : string) (w : World) :
  valid_row line = true ->
  List.length (rawData w) = 168%nat ->
  fst (processLine line w) = Returned tt /\
  List.length (rawData (snd (processLine line w))) = 168%nat /\
  total_samples (rawData (snd (processLine line w))) =
    (total_samples (rawData w) + if contributes line then 1 else 0)%nat.
Proof.
  unfold valid_row, contributes.
  destruct (parsed_row line) as [[[[dow hod] prod] cns]|] eqn:Hrow; [|discriminate].
  intros Hcol Hlen. apply andb_true_iff in Hcol as [H0 H1].
  apply Z.leb_le in H0, H1.
  rewrite processLine_run, (line_effect_parsed _ _ _ _ _ _ Hrow), Hlen.
  destruct (cns <? 0)%float.
  - rewrite py_pos_in_range by (cbn; lia). cbn [fst snd evolve rawData put].
    rewrite length_update_at, total_samples_update_at by lia.
    repeat split; [assumption|lia].
  - cbn [fst snd evolve rawData put]. repeat split; [assumption|lia].
Qed.

Lemma for_each_valid_rows (lines : list string) (w : World) :
  forallb valid_row lines = true ->
  List.length (rawData w) = 168%nat ->
  fst (for_each lines processLine w) = Returned tt /\
  total_samples (rawData (snd (for_each lines processLine w))) =
    (total_samples (rawData w) + List.length (filter contributes lines))%nat.
Proof.
  revert w; induction lines as [|line lines IH]; intros w Hall Hlen;
    cbn [for_each forallb filter] in *.
  - cbn. split; [reflexivity|lia].
  - apply andb_true_iff in Hall as [Hline Hall].
    destruct (processLine_valid_row line w Hline Hlen) as (Hres & Hlen' & Htot).
    unfold bind. destruct (processLine line w) as [[[]|e] w1]; [|discriminate].
    cbn [fst snd] in *. destruct (IH w1 Hall Hlen') as (IHres & IHtot).
    split; [exact IHres|]. rewrite IHtot, Htot.
    destruct (contributes line); cbn [List.length]; lia.
Qed.

(** X9. When every line of a file is readable with its day and hour in the
    week, processing the file ends normally and the store gains exactly one
    value for each line whose consumption is below zero, and none for the
    others. *)
Theorem processFile_counts_samples (fs : FileSystem) (dataFile text : string)
  (w : World) :
  fs_text fs dataFile = Some text ->
  forallb valid_row (text_lines text) = true ->
  List.length (rawData w) = 168%nat ->
  fst (processFile fs dataFile w) = Returned tt /\
  total_samples (rawData (snd (processFile fs dataFile w))) =
    (total_samples (rawData w) +
     List.length (filter contributes (text_lines text)))%nat.
Proof.
  intros Htext Hall Hlen.
  assert (Hrun : processFile fs dataFile w = for_each (text_lines text) processLine w).
  { unfold processFile, readlines. now rewrite Htext. }
  rewrite Hrun. now apply for_each_valid_rows.
Qed.

Lemma processFile_counts_samples_witness :
  let text := "360, 1, 0, 2.0, -5.0" ++ OneGame.nl ++
              "361, 1, 1, 3.0, 0.0" ++ OneGame.nl ++
              "362, 1, 0, , -1.5" ++ OneGame.nl in
  let fs := {| fs_entries := fun _ => []; fs_text := fun _ => Some text |} in
  fst (processFile fs "g" world_init) = Returned tt /\
  total_samples (rawData (snd (processFile fs "g" world_init))) =
    (total_samples (rawData world_init) +
     List.length (filter contributes (text_lines text)))%nat.
Proof.
  intros text fs.
  apply (processFile_counts_samples fs "g" text world_init); reflexivity.
Defined.

(** ** What aggregation prints *)

Lemma line_effect_says (n : nat) (line : string) :
  exists k, snd (line_effect n line) = repeat diagnostic k.
Proof.
  unfold line_effect, floatMaybe_says.
  repeat match goal with
         | |- context [match ?x with _ => _ end] => destruct x
         | |- context [if ?x then _ else _] => destruct x
         end; cbn [snd app];
    solve [now exists 0%nat | now exists 1%nat | now exists 2%nat].
Qed.

Lemma for_each_quiet {A} (body : A -> M unit) (l : list A) :
  (forall x w, exists k,
      stdout (snd (body x w)) = (stdout w ++ repeat diagnostic k)%list /\
      shown (snd (body x w)) = shown w) ->
  forall w, exists k,
      stdout (snd (for_each l body w)) = (stdout w ++ repeat diagnostic k)%list /\
      shown (snd (for_each l body w)) = shown w.
Proof.
  intros Hbody. induction l as [|x l IH]; intros w; cbn [for_each].
  - exists 0%nat. cbn. now rewrite app_nil_r.
  - unfold bind. destruct (Hbody x w) as (k1 & Ho & Hs).
    destruct (body x w) as [[[]|e] w1]; cbn [snd] in *.
    + destruct (IH w1) as (k2 & Ho2 & Hs2). exists (k1 + k2)%nat.
      rewrite Ho2, Hs2, Ho, Hs, repeat_app, app_assoc. now split.
    + exists k1. now split.
Qed.

Lemma processLine_quiet (line : string) (w : World) :
  exists k,
    stdout (snd (processLine line w)) = (stdout w ++ repeat diagnostic k)%list /\
    shown (snd (processLine line w)) = shown w.
Proof.
  rewrite processLine_run.
  destruct (line_effect_says (List.length (rawData w)) line) as (k & Hk).
  destruct (line_effect _ line) as [[res upd] says]. cbn [snd] in *. subst says.
  exists k. now split.
Qed.

Lemma processFile_quiet (fs : FileSystem) (dataFile : string) (w : World) :
  exists k,
    stdout (snd (processFile fs dataFile w)) = (stdout w ++ repeat diagnostic k)%list /\
    shown (snd (processFile fs dataFile w)) = shown w.
Proof.
  unfold processFile, readlines. destruct (fs_text fs dataFile) as [text|].
  - change (bind (ret (text_lines text)) (fun lines => for_each lines processLine) w)
      with (for_each (text_lines text) processLine w).
    apply for_each_quiet. apply processLine_quiet.
  - exists 0%nat. cbn. now rewrite app_nil_r.
Qed.

(** X10. Aggregating a directory prints nothing but the diagnostic
    [failed to float ], some number of times, and displays no figure,
    whether it ends normally or raises. *)
Theorem collectData_prints_only_diagnostics (fs : FileSystem) (dataDir : string)
  (w : World) :
  exists k,
    stdout (snd (collectData fs dataDir w)) = (stdout w ++ repeat diagnostic k)%list /\
    shown (snd (collectData fs dataDir w)) = shown w.
Proof.
  unfold collectData. apply for_each_quiet. intros p w0. apply processFile_quiet.
Qed.

(** ** A directory as the sum of its files *)

Lemma for_each_contributions {A} (body : A -> M unit) (n : nat) (l : list A) :
  (forall x, exists res upds says, acts (body x) n res upds says) ->
  Forall (fun x => fst (body x (fresh n)) = Returned tt) l ->
  forall w, List.length (rawData w) = n ->
    fst (for_each l body w) = Returned tt /\
    rawData (snd (for_each l body w)) =
      fold_left (fun r x => app_each r (rawData (snd (body x (fresh n)))))
                l (rawData w).
Proof.
  intros Hbody Hall. induction Hall as [|x l Hx _ IH]; intros w Hw;
    cbn [for_each fold_left].
  - split; reflexivity.
  - destruct (Hbody x) as (res & upds & says & Hacts).
    destruct (acts_contributions _ _ _ _ _ w Hacts Hw) as (Hraw & Hres).
    assert (Hlen : List.length (rawData (snd (body x w))) = n).
    { rewrite (Hacts w Hw). cbn. now rewrite length_puts. }
    unfold bind. rewrite Hx in Hres.
    destruct (body x w) as [[[]|e] w1]; cbn [fst snd] in *; [|discriminate].
    rewrite <- Hraw. now apply IH.
Qed.

(** X11. When each data file of a directory, processed alone on a fresh
    store, ends normally, aggregating the directory ends normally and each
    bucket holds what it held before followed by the contributions of the
    files, one file after the other in enumeration order. *)
Theorem collectData_sums_files (fs : FileSystem) (dataDir : string) (w : World) :
  let n := List.length (rawData w) in
  let files := fst (iterate fs (dataIter dataDir)) in
  let contributions p := rawData (snd (processFile fs (Path_str p) (fresh n))) in
  Forall (fun p => fst (processFile fs (Path_str p) (fresh n)) = Returned tt) files ->
  fst (collectData fs dataDir w) = Returned tt /\
  rawData (snd (collectData fs dataDir w)) =
    fold_left (fun r p => app_each r (contributions p)) files (rawData w).
Proof.
  intros n files contributions Hall. unfold collectData.
  apply (for_each_contributions
           (fun dataFile => processFile fs (Path_str dataFile)) n files);
    [|exact Hall|reflexivity].
  intros p. apply acts_processFile.
Qed.

Lemma collectData_sums_files_witness :
  fst (collectData OneGame.fs "games" world_init) = Returned tt /\
  rawData (snd (collectData OneGame.fs "games" world_init)) =
    fold_left
      (fun r p => app_each r (rawData (snd (processFile OneGame.fs (Path_str p)
                                             (fresh (List.length (rawData world_init)))))))
      (fst (iterate OneGame.fs (dataIter "games"))) (rawData world_init).
Proof.
  apply (collectData_sums_files OneGame.fs "games" world_init).
  repeat constructor.
Defined.

(** ** Line endings *)

Lemma universal_newlines_without_CR (t : list ascii) :
  ~ In CR t -> universal_newlines t = t.
Proof.
  induction t as [|c t IH]; intros H; cbn [universal_newlines]; [reflexivity|].
  destruct (Ascii.eqb_spec c CR) as [->|_]; [exfalso; apply H; now left|].
  rewrite IH; [reflexivity|]. intros Hin. apply H. now right.
Qed.

Lemma universal_newlines_to_crlf (s : string) :
  ~ In CR (PyText.chars s) ->
  universal_newlines (PyText.chars (to_crlf s)) = PyText.chars s.
Proof.
  unfold PyText.chars.
  induction s as [|c s IH]; intros H; cbn [to_crlf list_ascii_of_string] in *;
    [reflexivity|].
  assert (Hs : ~ In CR (list_ascii_of_string s)) by (intros Hin; apply H; now right).
  destruct (Ascii.eqb_spec c LF) as [->|Hc].
  - cbn [list_ascii_of_string universal_newlines].
    change (Ascii.eqb CR CR) with true. change (Ascii.eqb LF LF) with true.
    cbv iota. now rewrite IH.
  - cbn [list_ascii_of_string universal_newlines].
    destruct (Ascii.eqb_spec c CR) as [->|_]; [exfalso; apply H; now left|].
    now rewrite IH.
Qed.

(** X12. A file written with carriage return and line feed at the end of
    each line is processed exactly as the same file written with line feeds
    alone. *)
Theorem crlf_file_processed_alike (fs fs' : FileSystem) (dataFile dataFile' text : string)
  (w : World) :
  fs_text fs dataFile = Some text ->
  fs_text fs' dataFile' = Some (to_crlf text) ->
  ~ In CR (PyText.chars text) ->
  processFile fs' dataFile' w = processFile fs dataFile w.
Proof.
  intros Htext Htext' Hcr. unfold processFile, readlines.
  rewrite Htext, Htext'. unfold text_lines.
  now rewrite universal_newlines_to_crlf, universal_newlines_without_CR.
Qed.

Lemma crlf_file_processed_alike_witness :
  let text := "360, 1, 0, 2.0, -5.0" ++ OneGame.nl ++ "361, 1, 1, , -1.0" ++ OneGame.nl in
  let fs := {| fs_entries := fun _ => []; fs_text := fun _ => Some text |} in
  let fs' := {| fs_entries := fun _ => []; fs_text := fun _ => Some (to_crlf text) |} in
  processFile fs' "g" world_init = processFile fs "g" world_init.
Proof.
  intros text fs fs'.
  apply (crlf_file_processed_alike fs fs' "g" "g" text world_init);
    [reflexivity | reflexivity |].
  cbn. intros H. repeat destruct H as [H|H]; try discriminate H. exact H.
Defined.

(** ** The line feed at the end of the last field *)

Lemma drop_spaces_snoc (l : list ascii) (c : ascii) :
  PyText.is_space c = true ->
  PyText.drop_spaces (l ++ [c]) =
  match PyText.drop_spaces l with
  | [] => []
  | x => (x ++ [c])%list
  end.
Proof.
  intros Hc. induction l as [|a l IH]; cbn [app PyText.drop_spaces].
  - now rewrite Hc.
  - destruct (PyText.is_space a); [exact IH|reflexivity].
Qed.

Lemma strip_snoc (l : list ascii) (c : ascii) :
  PyText.is_space c = true -> PyText.strip (l ++ [c]) = PyText.strip l.
Proof.
  intros Hc. unfold PyText.strip. rewrite (drop_spaces_snoc l c Hc).
  destruct (PyText.drop_spaces l) as [|a x]; [reflexivity|].
  rewrite rev_app_distr. cbn [rev app PyText.drop_spaces]. now rewrite Hc.
Qed.

Lemma parse_float_snoc (s : string) (c : ascii) :
  PyText.is_space c = true ->
  PyFloat.parse (s ++ String c "") = PyFloat.parse s.
Proof.
  intros Hc. unfold PyFloat.parse. rewrite chars_app.
  change (PyText.chars (String c "")) with [c].
  now rewrite strip_snoc.
Qed.

(** X13. White space at the end of a non-empty field, such as the line
    feed that ends the last field of a line, does not change what
    [floatMaybe] returns. A field made of that character alone is not the
    empty string: it gets no 0.0 default and raises [ValueError]. *)
Theorem floatMaybe_trailing_space (str : string) (c : ascii) (w : World) :
  PyText.is_space c = true ->
  (str <> "" -> floatMaybe (str ++ String c "") w = floatMaybe str w) /\
  floatMaybe (String c "") w = (Raised ValueError, w).
Proof.
  intros Hc. split.
  - intros Hne. unfold floatMaybe.
    rewrite (parse_float_snoc str c Hc).
    destruct (String.eqb_spec str "") as [E|_]; [contradiction|].
    destruct (String.eqb_spec (str ++ String c "") "") as [E|_]; [|reflexivity].
    destruct str; discriminate E.
  - unfold floatMaybe. cbn [String.eqb negb].
    change (String c "") with ("" ++ String c "").
    now rewrite (parse_float_snoc "" c Hc).
Qed.

Lemma floatMaybe_trailing_space_witness :
  floatMaybe ("-5.0" ++ String LF "") world_init = floatMaybe "-5.0" world_init /\
  floatMaybe (String LF "") world_init = (Raised ValueError, world_init).
Proof.
  destruct (floatMaybe_trailing_space "-5.0" LF world_init eq_refl) as (H1 & H2).
  split; [apply H1; discriminate|exact H2].
Defined.

(** ** Reading a bucket index back *)

(** X14. Every bucket index from 0 to 167 is the index of a day and an hour
    of the week, which are recovered from it by division by 24; so each of
    the 168 buckets can be reached, and for a valid day and hour the
    division gives them back. *)
Theorem column_decodes (i dow hod : Z) :
  (0 <= i <= 167 ->
   1 <= i / 24 + 1 <= 7 /\ 0 <= i mod 24 <= 23 /\
   column (i / 24 + 1) (i mod 24) = i) /\
  (1 <= dow <= 7 -> 0 <= hod <= 23 ->
   column dow hod / 24 + 1 = dow /\ column dow hod mod 24 = hod).
Proof.
  unfold column. split.
  - intros Hi.
    pose proof (Z.div_mod i 24 ltac:(lia)).
    pose proof (Z.mod_pos_bound i 24 ltac:(lia)).
    assert (0 <= i / 24 <= 6).
    { split; [apply Z.div_pos; lia|].
      apply Z.lt_succ_r. apply Z.div_lt_upper_bound; lia. }
    lia.
  - intros Hd Hh.
    assert (E : (dow - 1) * 24 + hod = hod + (dow - 1) * 24) by lia.
    rewrite E, Z.div_add, Z.mod_add, Z.div_small, Z.mod_small by lia. lia.
Qed.

Lemma column_decodes_witness :
  (1 <= 167 / 24 + 1 <= 7 /\ 0 <= 167 mod 24 <= 23 /\
   column (167 / 24 + 1) (167 mod 24) = 167) /\
  (column 3 17 / 24 + 1 = 3 /\ column 3 17 mod 24 = 17).
Proof.
  destruct (column_decodes 167 3 17) as (H1 & H2).
  split; [apply H1; lia|apply H2; lia].
Defined.

(** ** The figure *)

Lemma shape_hd (d : list (list float)) : hd O (Numpy.shape d) = List.length d.
Proof.
  unfold Numpy.shape. destruct d as [|a d]; [reflexivity|].
  destruct (forallb _ d); reflexivity.
Qed.

(** X15. [plotMeans] always ends normally and leaves the store as it was.
    It prints one line and displays one figure, which has one point per
    bucket: the abscissas are the bucket indices from 0 on, with as many
    means and as many error bars. When the store is not empty and all its
    buckets have one length, the printed line is [Shape:] followed by the
    pair of the number of buckets and that length. *)
Theorem plotMeans_one_point_per_bucket (w : World) (k : nat) :
  let w' := snd (plotMeans w) in
  let n := List.length (rawData w) in
  fst (plotMeans w) = Returned tt /\
  rawData w' = rawData w /\
  (exists text, stdout w' = (stdout w ++ [text])%list) /\
  (exists c, shown w' = (shown w ++ [c])%list /\
             chart_x c = map Z.of_nat (seq 0 n) /\
             List.length (chart_y c) = n /\
             List.length (chart_yerr c) = n) /\
  (rawData w <> [] ->
   Forall (fun b => List.length b = k) (rawData w) ->
   stdout w' = (stdout w ++ [String.concat " " ["Shape:"; repr_tuple [n; k]]])%list).
Proof.
  intros w' n. subst w'. rewrite plotMeans_run. cbn [fst snd rawData stdout shown].
  split; [reflexivity|]. split; [reflexivity|]. split; [eauto|]. split.
  - eexists. split; [reflexivity|]. cbn [chart_x chart_y chart_yerr].
    rewrite shape_hd, !length_map. repeat split.
  - intros Hne Hall. do 2 f_equal.
    destruct (rawData w) as [|a d] eqn:E; [congruence|].
    apply Forall_cons_iff in Hall as [Ha Hd].
    unfold Numpy.shape.
    assert (Hb : forallb (fun b => Nat.eqb (List.length b) (List.length a)) d = true).
    { apply forallb_forall. intros b Hb. apply Nat.eqb_eq.
      rewrite Forall_forall in Hd. rewrite (Hd b Hb). now rewrite Ha. }
    rewrite Hb, Ha. subst n. reflexivity.
Qed.

Lemma plotMeans_one_point_per_bucket_witness :
  stdout (snd (plotMeans world_init)) = (stdout world_init ++ ["Shape: (168, 0)"])%list.
Proof.
  apply (proj2 (proj2 (proj2 (proj2
           (plotMeans_one_point_per_bucket world_init 0))))).
  - discriminate.
  - repeat constructor.
Defined.
